(** * Droidboot: the fastboot command handlers (aboot.c) and the autoboot /
      update orchestration (droidboot.c), as a shallow embedding.

    The handlers are C functions that talk to the outside world through
    library calls (libdiskconfig, stdio, the shell, the kernel).  Each such
    call is an oracle of the record [env]; each effect the call has on the
    outside world is an [event] appended to the trace of the run.  The few
    process-wide variables of droidboot.c are the record [globals].
    Logging, [free] and [close] leave no event. *)

From Stdlib Require Import ZArith List String Ascii Bool Lia.
From Stdlib Require Import Strings.Byte.
Import ListNotations.
Local Open Scope string_scope.
Local Open Scope Z_scope.


(* ------------------------------------------------------------------ *)
(** ** Data *)

(** [struct part_info] of libdiskconfig, restricted to the two fields the
    handlers read. *)
Record part_info := { ptn_name : string; ptn_type : Z }.

(** Modelled from the spec: the partition type code of diskconfig.h, which
    is not part of the sources; the handlers only compare against it. *)
Definition PC_PART_TYPE_LINUX : Z := 0x83.

(** Modelled from the spec: the superblock magic of linux/ext3_fs.h, which
    is not part of the sources; the handler only compares against it. *)
Definition EXT3_SUPER_MAGIC : Z := 0xEF53.

Definition EXT_SUPERBLOCK_OFFSET : Z := 1024.

(** [Volume] of the recovery fstab. *)
Record Volume := {
  mount_point : string;
  fs_type : string;
  device : string;
  device2 : option string
}.

(** The two [open] calls of [cmd_flash]. *)
Inductive open_site := OpenForReread | OpenForSuperblock.

Inductive reply :=
| OKAY (msg : string)
| FAIL (msg : string).

(** What a run does to the outside world, in program order. *)
Inductive event :=
| Reply (r : reply)                          (* fastboot_okay / fastboot_fail *)
| Popen (cmd : string)                       (* popen(cmd, "w") returned a stream *)
| Fwrite (payload : list byte) (accepted : nat)
| Pclose
| Sync
| Open (dev : string)                        (* open(dev, O_RDWR) returned an fd *)
| Reread (dev : string)                      (* ioctl(fd, BLKRRPART) *)
| Seek (dev : string) (offset : Z)            (* lseek(fd, offset, SEEK_SET) *)
| ReadSuperblock (dev : string)              (* read of one struct ext3_super_block *)
| Exec (cmd : string) (status : Z)           (* execute_command *)
| StitchImage (payload : list byte) (index : Z)
| ApplyDiskConfig
| Reboot
| MountPartition (ptn : option part_info)
| Kexec (basepath : string)
| MountDevice (dev mountpoint : string)
| Umount (mountpoint : string)
| Stat (path : string)
| UiShowText (on : Z)
| UiShowProgress (seconds : Z)
| UiShowIndeterminate
| UiResetProgress
| Sleep (seconds : Z)
| Lock
| Unlock
| PlatformProvision
| FilesystemChecks (dev : string)
| ErasePartition (ptn : part_info)
| ApplySwUpdate (path : string).

(** Why a run stops without returning to its caller. *)
Inductive halt :=
| Died                      (* die(): the process exits *)
| Rebooted                  (* __reboot succeeded *)
| Kexeced                   (* kexec_linux transferred control *)
| BadRead (index : nat)     (* a read past the end of the payload *)
| Overflow                  (* a signed decrement below INT_MIN *)
| OutOfFuel.                (* the loop bound of the model was reached *)

Inductive res (A : Type) :=
| Val (a : A)
| Stop                      (* [return] or [goto out] of a void handler *)
| Halt (why : halt).
Arguments Val {A} a.
Arguments Stop {A}.
Arguments Halt {A} why.

(** The process-wide variables of droidboot.c that change after start-up,
    and the number of scheduling windows gone by: [clock] indexes the
    windows in which the input thread may run. *)
Record globals := {
  autoboot_enabled : Z;
  g_update_location : option string;
  clock : nat
}.

(** The outside world and the start-up configuration. *)
Record env := {
  (* libdiskconfig *)
  disk_device : string;                       (* disk_info->device *)
  find_part : string -> option part_info;
  find_part_device : string -> option string;
  apply_disk_config : Z;
  (* util *)
  is_valid_blkdev : string -> bool;
  execute_command : string -> Z;
  (* libc *)
  asprintf_ok : string -> bool;               (* asprintf of this text succeeds *)
  strdup_ok : string -> bool;
  popen_ok : string -> bool;
  fwrite : string -> list byte -> nat;        (* items accepted by the pipe *)
  open_ok : open_site -> string -> bool;
  lseek : string -> Z -> Z;
  read_superblock : string -> option Z;       (* s_magic, or a short read *)
  reboot_ok : bool;
  (* update_osip *)
  write_stitch_image : list byte -> Z -> Z;
  (* droidboot_util *)
  mount_partition : option part_info -> Z;
  kexec_ok : string -> bool;
  mount_partition_device : string -> string -> string -> Z;
  stat : string -> Z;
  ext4_filesystem_checks : string -> part_info -> Z;
  erase_partition : part_info -> Z;
  platform_provision_function : option Z;     (* NULL, or what the hook returns *)
  (* the input thread: a key event arrives in window n *)
  key_event : nat -> bool;
  (* build and boot configuration *)
  DEVICE_NAME : string;
  CACHE_PTN : string;
  DATA_PTN : string;
  g_2ndstageboot_part : string;
  g_2ndstageboot_dir : string;
  g_autoboot_delay_secs : Z;
  g_update_pause : Z
}.

(* ------------------------------------------------------------------ *)
(** ** The monad of runs: events out, globals through, early exit *)

Definition M (A : Type) : Type := globals -> list event * globals * res A.

Definition ret {A} (a : A) : M A := fun g => ([], g, Val a).

Definition bind {A B} (m : M A) (f : A -> M B) : M B := fun g =>
  let '(t, g1, r) := m g in
  match r with
  | Val a => let '(t', g2, r') := f a g1 in ((t ++ t')%list, g2, r')
  | Stop => (t, g1, Stop)
  | Halt h => (t, g1, Halt h)
  end.

Notation "x <- c1 ;; c2" := (bind c1 (fun x => c2))
  (at level 61, c1 at next level, right associativity).
Notation "' pat <- c1 ;; c2" := (bind c1 (fun x => match x with pat => c2 end))
  (at level 61, pat pattern, c1 at next level, right associativity).
Notation "c1 ;; c2" := (bind c1 (fun _ => c2))
  (at level 61, right associativity).

Definition emit (e : event) : M unit := fun g => ([e], g, Val tt).
Definition stop {A} : M A := fun g => ([], g, Stop).
Definition halt_with {A} (h : halt) : M A := fun g => ([], g, Halt h).
Definition get : M globals := fun g => ([], g, Val g).
Definition put (g' : globals) : M unit := fun _ => ([], g', Val tt).

(** A void function: [return] and [goto out] end it, the caller goes on. *)
Definition void (body : M unit) : M unit := fun g =>
  let '(t, g1, r) := body g in
  match r with
  | Stop => (t, g1, Val tt)
  | _ => (t, g1, r)
  end.

Definition fastboot_okay (msg : string) : M unit := emit (Reply (OKAY msg)).
Definition fastboot_fail (msg : string) : M unit := emit (Reply (FAIL msg)).

(** Modelled from the spec: [die] of util.c is not part of the sources; a
    fatal error terminates the process. *)
Definition die {A} : M A := halt_with Died.

Definition exec (w : env) (cmd : string) : M Z :=
  let r := execute_command w cmd in
  emit (Exec cmd r) ;; ret r.

(* ------------------------------------------------------------------ *)
(** ** libc helpers the handlers use on their arguments *)

Definition is_space (c : ascii) : bool :=
  let n := nat_of_ascii c in
  (Nat.eqb n 32 || (Nat.leb 9 n && Nat.leb n 13))%bool.

Definition is_digit (c : ascii) : bool :=
  let n := nat_of_ascii c in (Nat.leb 48 n && Nat.leb n 57)%bool.

Fixpoint skip_while (p : ascii -> bool) (s : string) : string :=
  match s with
  | String c s' => if p c then skip_while p s' else s
  | EmptyString => s
  end.

Fixpoint digits (acc : Z) (s : string) : Z :=
  match s with
  | String c s' =>
      if is_digit c
      then digits (10 * acc + (Z.of_nat (nat_of_ascii c) - 48)) s'
      else acc
  | EmptyString => acc
  end.

(** Wrap to a 32-bit [int]. *)
Definition to_int (z : Z) : Z := (z + 2^31) mod 2^32 - 2^31.

Definition INT_MIN : Z := - 2^31.

(** The range of [long] on the 64-bit target. *)
Definition LONG_MIN : Z := - 2^63.
Definition LONG_MAX : Z := 2^63 - 1.

(** [strtol(s, NULL, 10)]: blanks, an optional sign, the decimal digits; a
    value outside [long] is replaced by the nearer bound. *)
Definition strtol (s : string) : Z :=
  let v := match skip_while is_space s with
           | String "-" s' => - digits 0 s'
           | String "+" s' => digits 0 s'
           | s' => digits 0 s'
           end in
  Z.max LONG_MIN (Z.min LONG_MAX v).

(** [atoi(s)] is [(int) strtol(s, NULL, 10)]: the cast keeps the low 32
    bits. *)
Definition atoi (s : string) : Z := to_int (strtol s).

(** [s + n] on a C string. *)
Definition advance (n : nat) (s : string) : string :=
  substring n (String.length s - n) s.

(** [while ( *arg == ' ') arg++;] *)
Definition skip_blanks (s : string) : string :=
  skip_while (fun c => Ascii.eqb c " ") s.

Definition when (b : bool) (m : M unit) : M unit := if b then m else ret tt.

(** [goto out;] of a handler whose [out:] label only frees memory. *)
Definition goto_out {A} : M A := stop.

(* ------------------------------------------------------------------ *)
(** ** aboot.c *)

Definition CMD_SYSTEM : string := "system".
Definition CMD_PARTITION : string := "partition".

Definition cmd_erase (w : env) (part_name : string) (data : list byte) : M unit :=
  void (
    ptn <- match find_part w part_name with
           | None => fastboot_fail "unknown partition name" ;; stop
           | Some ptn => ret ptn
           end ;;
    pdevice <- match find_part_device w (ptn_name ptn) with
               | None => fastboot_fail "find_part_device failed!" ;; die
               | Some pdevice => ret pdevice
               end ;;
    when (negb (is_valid_blkdev w pdevice))
      (fastboot_fail "invalid destination node. partition disks?" ;; goto_out) ;;
    (if ptn_type ptn =? PC_PART_TYPE_LINUX then
       let cmd := "/system/bin/make_ext4fs -L " ++ ptn_name ptn ++ " " ++ pdevice in
       when (negb (asprintf_ok w cmd))
         (fastboot_fail "memory allocation error" ;; goto_out) ;;
       r <- exec w cmd ;;
       when (negb (r =? 0)) (fastboot_fail "make_ext4fs failed" ;; goto_out)
     else
       fastboot_fail "Unsupported partition type" ;; goto_out) ;;
    fastboot_okay "").

(** [data_bytes[i]]: the payload holds [sz] bytes, a read at or past [sz]
    is outside it. *)
Definition data_byte (data : list byte) (i : nat) : M byte :=
  match nth_error data i with
  | Some b => ret b
  | None => halt_with (BadRead i)
  end.

(** The condition of the gzip test of [cmd_flash], with the short-circuit
    evaluation of [&&]:
    [sz > 2 && data_bytes[0] == 0x1f && data_bytes[1] == 0x8b
            && data_bytes[3] == 8]. *)
Definition gzip_header (data : list byte) : M bool :=
  if (2 <? List.length data)%nat then
    b0 <- data_byte data 0 ;;
    if Byte.eqb b0 x1f then
      b1 <- data_byte data 1 ;;
      if Byte.eqb b1 x8b then
        b3 <- data_byte data 3 ;;
        ret (Byte.eqb b3 x08)
      else ret false
    else ret false
  else ret false.

Definition gzip_dd (dev : string) : string :=
  "/system/bin/gzip -c -d | /system/bin/dd of=" ++ dev ++ " bs=8192".
Definition raw_dd (dev : string) : string :=
  "/system/bin/dd of=" ++ dev ++ " bs=8192".
Definition resize2fs (dev : string) : string := "/system/bin/resize2fs -F " ++ dev.
Definition e2fsck (dev : string) : string := "/system/bin/e2fsck -C 0 -fy " ++ dev.
Definition tune2fs (dev : string) : string := "/system/bin/tune2fs -C 1 " ++ dev.

(** The three steps run when [do_ext_checks] is set. *)
Definition ext_checks (w : env) (device : string) : M unit :=
  when (negb (asprintf_ok w (resize2fs device)))
    (fastboot_fail "memory allocation error" ;; goto_out) ;;
  r <- exec w (resize2fs device) ;;
  when (negb (r =? 0))
    (fastboot_fail "could not resize filesystem to fill disk" ;; goto_out) ;;
  when (negb (asprintf_ok w (e2fsck device)))
    (fastboot_fail "memory allocation error" ;; goto_out) ;;
  fsck <- exec w (e2fsck device) ;;
  when ((fsck <? 0) || (fsck >? 1))
    (* Return value of 1 is OK *)
    (fastboot_fail "fsck of filesystem failed" ;; goto_out) ;;
  when (negb (asprintf_ok w (tune2fs device)))
    (fastboot_fail "memory allocation error" ;; goto_out) ;;
  r <- exec w (tune2fs device) ;;
  when (negb (r =? 0)) (fastboot_fail "tune2fs failed" ;; goto_out).

(** The superblock probe: the value of [do_ext_checks]. *)
Definition probe_ext (w : env) (device : string) (ptn : option part_info)
  : M bool :=
  match ptn with
  | Some p =>
      if ptn_type p =? PC_PART_TYPE_LINUX then
        when (negb (open_ok w OpenForSuperblock device))
          (fastboot_fail "could not open device node" ;; goto_out) ;;
        emit (Open device) ;;
        emit (Seek device EXT_SUPERBLOCK_OFFSET) ;;
        when (negb (lseek w device EXT_SUPERBLOCK_OFFSET =? EXT_SUPERBLOCK_OFFSET))
          (fastboot_fail "could not seek to superblock offset" ;; goto_out) ;;
        emit (ReadSuperblock device) ;;
        match read_superblock w device with
        | None => fastboot_fail "couldn't read superblock" ;; goto_out
        | Some s_magic => ret (EXT3_SUPER_MAGIC =? s_magic)
        end
      else ret false
  | None => ret false
  end.

Definition cmd_flash (w : env) (part_name : string) (data : list byte) : M unit :=
  void (
    let sz := List.length data in
    '(device, ptn) <-
      (if (part_name =? "disk")%string then ret (disk_device w, None)
       else if prefix "osip" part_name then
         let entry_index := atoi (advance 4 part_name) in
         emit (StitchImage data entry_index) ;;
         (if negb (write_stitch_image w data entry_index =? 0)
          then fastboot_fail "write_stitch_image failure"
          else fastboot_okay "") ;;
         stop
       else
         match find_part_device w part_name with
         | None => fastboot_fail "unknown partition specified" ;; stop
         | Some device => ret (device, find_part w part_name)
         end) ;;
    when (negb (is_valid_blkdev w device))
      (fastboot_fail "invalid destination node. partition disks?" ;; goto_out) ;;
    gz <- gzip_header data ;;
    let cmd := if gz then gzip_dd device else raw_dd device in
    when (negb (asprintf_ok w cmd))
      (fastboot_fail "memory allocation error" ;; goto_out) ;;
    when (negb (popen_ok w cmd))
      (fastboot_fail "popen failure" ;; goto_out) ;;
    emit (Popen cmd) ;;
    let written := fwrite w cmd data in
    emit (Fwrite data written) ;;
    when (negb (Nat.eqb sz written))
      (* fp is still open here: [out:] closes it *)
      (fastboot_fail "image write failure" ;; emit Pclose ;; goto_out) ;;
    emit Pclose ;;
    emit Sync ;;
    when (device =? disk_device w)%string
      (when (negb (open_ok w OpenForReread device))
         (fastboot_fail "could not open device node" ;; goto_out) ;;
       emit (Open device) ;;
       emit (Reread device)) ;;
    do_ext_checks <- probe_ext w device ptn ;;
    when do_ext_checks (ext_checks w device) ;;
    fastboot_okay "").

Definition cmd_oem (w : env) (arg : string) (data : list byte) : M unit :=
  void (
    let arg := skip_blanks arg in
    let command := arg in
    if prefix CMD_SYSTEM command then
      let arg := skip_blanks (advance (String.length CMD_SYSTEM) arg) in
      retval <- exec w arg ;;
      if negb (retval =? 0)
      then fastboot_fail "OEM system command failed"
      else fastboot_okay ""
    else if prefix CMD_PARTITION command then
      emit ApplyDiskConfig ;;
      if negb (apply_disk_config w =? 0)
      then fastboot_fail "apply_disk_config error"
      else fastboot_okay ""
    else fastboot_fail "unknown OEM command").


Definition cmd_reboot (w : env) (arg : string) (data : list byte) : M unit :=
  void (
    fastboot_okay "" ;;
    emit Sync ;;
    emit Reboot ;;
    if reboot_ok w then halt_with Rebooted else ret tt).

Definition PATH_MAX : nat := 4096.

(** droidboot.c; [snprintf] cuts the path at [PATH_MAX - 1] characters. *)
Definition start_default_kernel (w : env) : M unit :=
  void (
    let ptn := find_part w (g_2ndstageboot_part w) in
    emit (MountPartition ptn) ;;
    when (negb (mount_partition w ptn =? 0)) stop ;;
    let basepath :=
      substring 0 (PATH_MAX - 1)
        ("/mnt/" ++ g_2ndstageboot_part w ++ "/" ++ g_2ndstageboot_dir w ++ "/") in
    emit (Kexec basepath) ;;
    if kexec_ok w basepath then halt_with Kexeced else ret tt).

Definition cmd_continue (w : env) (arg : string) (data : list byte) : M unit :=
  void (
    start_default_kernel w ;;
    fastboot_fail "Unable to boot default kernel!").



(* ------------------------------------------------------------------ *)
(** ** droidboot.c *)

Definition set_autoboot_enabled (v : Z) : M unit :=
  g <- get ;;
  put {| autoboot_enabled := v;
         g_update_location := g_update_location g;
         clock := clock g |}.

Definition set_update_location (p : option string) : M unit :=
  g <- get ;;
  put {| autoboot_enabled := autoboot_enabled g;
         g_update_location := p;
         clock := clock g |}.

Definition AUTO_UPDATE_FNAME (w : env) : string := DEVICE_NAME w ++ ".auto-ota.zip".

Definition provision_partition (w : env) (name : string) (source_volume : Volume)
  : M Z :=
  match find_part w name with
  | None => ret (-1)
  | Some ptn =>
      match find_part_device w (ptn_name ptn) with
      | None => ret (-1)
      | Some dev =>
          if (device source_volume =? dev)%string then
            emit (FilesystemChecks dev) ;;
            if negb (ext4_filesystem_checks w dev ptn =? 0) then ret (-1) else ret 0
          else
            emit (ErasePartition ptn) ;;
            if negb (erase_partition w ptn =? 0) then ret (-1) else ret 0
      end
  end.

Definition provisioning_checks (w : env) (source_device : Volume) : M Z :=
  hook <- match platform_provision_function w with
          | Some r => emit PlatformProvision ;; ret r
          | None => ret 0
          end ;;
  if negb (hook =? 0) then ret (-1) else
  r <- provision_partition w (CACHE_PTN w) source_device ;;
  if negb (r =? 0) then ret (-1) else
  r <- provision_partition w (DATA_PTN w) source_device ;;
  if negb (r =? 0) then ret (-1) else
  ret 0.

Definition detect_sw_update (w : env) (vol : Volume) : M (option string) :=
  let mountpoint := "/mnt" ++ mount_point vol in
  when (negb (asprintf_ok w mountpoint)) die ;;
  let filename := mountpoint ++ "/" ++ AUTO_UPDATE_FNAME w in
  when (negb (asprintf_ok w filename)) die ;;
  emit (MountDevice (device vol) mountpoint) ;;
  mounted <-
    (if negb (mount_partition_device w (device vol) (fs_type vol) mountpoint =? 0)
     then
       match device2 vol with
       | None => ret false
       | Some d2 =>
           emit (MountDevice d2 mountpoint) ;;
           ret (mount_partition_device w d2 (fs_type vol) mountpoint =? 0)
       end
     else ret true) ;;
  found <-
    (if mounted then
       emit (Stat filename) ;;
       if negb (stat w filename =? 0) then ret None
       else
         (* Nip off leading '/mnt' *)
         let r := advance 4 filename in
         when (negb (strdup_ok w r)) die ;;
         ret (Some r)
     else ret None) ;;
  emit (Umount mountpoint) ;;
  ret found.

Definition disable_autoboot : M unit :=
  g <- get ;;
  when (negb (autoboot_enabled g =? 0)) (set_autoboot_enabled 0).

(** One scheduling window of the input listener thread: when a key event
    is pending in this window, [input_callback] calls [disable_autoboot]. *)
Definition input_window (w : env) : M unit :=
  g <- get ;;
  put {| autoboot_enabled := autoboot_enabled g;
         g_update_location := g_update_location g;
         clock := S (clock g) |} ;;
  when (key_event w (clock g)) disable_autoboot.

(** [for ( ; seconds && autoboot_enabled; seconds--) { ...; sleep(1); }];
    the input thread runs while the loop sleeps.  [fuel] bounds the number
    of iterations of the model. *)
Fixpoint countdown_loop (w : env) (fuel : nat) (seconds : Z) {struct fuel}
  : M unit :=
  g <- get ;;
  if negb (seconds =? 0) && negb (autoboot_enabled g =? 0) then
    match fuel with
    | O => halt_with OutOfFuel
    | S fuel' =>
        emit (Sleep 1) ;;
        input_window w ;;
        when (seconds =? INT_MIN) (halt_with Overflow) ;;
        countdown_loop w fuel' (seconds - 1)
    end
  else ret tt.

(** The input thread may also run between arming the flag and the first
    test of the loop, and between the last test and the read of the flag. *)
Definition countdown (w : env) (fuel : nat) (action : string) (seconds : Z)
  : M Z :=
  set_autoboot_enabled 1 ;;
  emit (UiShowProgress seconds) ;;
  input_window w ;;
  countdown_loop w fuel seconds ;;
  emit UiResetProgress ;;
  input_window w ;;
  g <- get ;;
  let r := autoboot_enabled g in
  set_autoboot_enabled 0 ;;
  ret r.

Definition try_update_sw (w : env) (fuel : nat) (vol : Volume) (use_countdown : Z)
  : M Z :=
  g <- get ;;
  (* Check if we've already been here *)
  match g_update_location g with
  | Some _ => ret 0
  | None =>
      update_location <- detect_sw_update w vol ;;
      match update_location with
      | None => ret 0
      | Some location =>
          go_on <-
            (if negb (use_countdown =? 0) then
               emit (UiShowText 1) ;;
               countdown_complete <-
                 countdown w fuel "SW update" (g_autoboot_delay_secs w) ;;
               emit (UiShowText 0) ;;
               ret (negb (countdown_complete =? 0))
             else ret true) ;;
          if negb go_on then ret 0 else
          emit Lock ;;
          emit UiShowIndeterminate ;;
          checks <- provisioning_checks w vol ;;
          r <- (if negb (checks =? 0) then ret (-1)
                else if g_update_pause w =? 0 then
                  emit (ApplySwUpdate location) ;; ret (-1)
                else
                  (* Stash the location for later use with 'fastboot continue' *)
                  set_update_location (Some location) ;; ret 0) ;;
          emit UiResetProgress ;;
          emit Unlock ;;
          ret r
      end
  end.

Definition autoboot_thread (w : env) (fuel : nat) : M unit :=
  void (
    c <- countdown w fuel "boot" (g_autoboot_delay_secs w) ;;
    when (c =? 0) stop ;;
    emit UiResetProgress ;;
    emit (UiShowText 1) ;;
    start_default_kernel w).

(* ------------------------------------------------------------------ *)
(** ** Reading a run *)

Definition trace_of {A} (r : list event * globals * res A) : list event :=
  fst (fst r).
Definition globals_of {A} (r : list event * globals * res A) : globals :=
  snd (fst r).
Definition result_of {A} (r : list event * globals * res A) : res A := snd r.

(** The replies sent to the host, in order. *)
Fixpoint replies (t : list event) : list reply :=
  match t with
  | Reply r :: t' => r :: replies t'
  | _ :: t' => replies t'
  | [] => []
  end.

(** Anything but a reply touches a device, a process or the UI. *)
Definition is_reply (e : event) : bool :=
  match e with Reply _ => true | _ => false end.

Definition is_sleep (e : event) : bool :=
  match e with Sleep _ => true | _ => false end.

(** The number of iterations of the countdown loop: each sleeps once. *)
Definition iterations (t : list event) : nat := List.length (filter is_sleep t).

Definition is_exec_of (cmd : string) (e : event) : bool :=
  match e with Exec c _ => (c =? cmd)%string | _ => false end.

Definition executed (cmd : string) (t : list event) : bool :=
  existsb (is_exec_of cmd) t.

(** The bytes handed to the write pipe. *)
Fixpoint bytes_written (t : list event) : nat :=
  match t with
  | Fwrite _ n :: t' => (n + bytes_written t')%nat
  | _ :: t' => bytes_written t'
  | [] => 0%nat
  end.

Definition g0 : globals :=
  {| autoboot_enabled := 0; g_update_location := None; clock := 0 |}.

(* ------------------------------------------------------------------ *)
(** ** A bench world, for running the handlers on concrete inputs

    The disk layout [parts] lists the declared partitions with their device
    nodes, all of type [ptype]; every device carries superblock magic
    [magic]; the write pipe drops the last [short] bytes; e2fsck exits with
    [fsck]; no key is pressed; every other call succeeds. *)
Definition layout : Type := list (string * option string).

Fixpoint node_of (parts : layout) (n : string) : option (option string) :=
  match parts with
  | (m, d) :: rest => if (m =? n)%string then Some d else node_of rest n
  | [] => None
  end.

Definition bench (parts : layout) (ptype magic fsck : Z) (short : nat) : env := {|
  disk_device := "/dev/mmcblk0";
  find_part := fun n =>
    match node_of parts n with
    | Some _ => Some {| ptn_name := n; ptn_type := ptype |}
    | None => None
    end;
  find_part_device := fun n =>
    match node_of parts n with
    | Some d => d
    | None => None
    end;
  apply_disk_config := 0;
  is_valid_blkdev := fun _ => true;
  execute_command := fun c =>
    if (c =? e2fsck "/dev/mmcblk0p1")%string then fsck else 0;
  asprintf_ok := fun _ => true;
  strdup_ok := fun _ => true;
  popen_ok := fun _ => true;
  fwrite := fun _ d => (List.length d - short)%nat;
  open_ok := fun _ _ => true;
  lseek := fun _ off => off;
  read_superblock := fun _ => Some magic;
  reboot_ok := true;
  write_stitch_image := fun _ _ => 0;
  mount_partition := fun _ => 0;
  kexec_ok := fun _ => true;
  mount_partition_device := fun _ _ _ => 0;
  stat := fun _ => 0;
  ext4_filesystem_checks := fun _ _ => 0;
  erase_partition := fun _ => 0;
  platform_provision_function := None;
  key_event := fun _ => false;
  DEVICE_NAME := "mfld";
  CACHE_PTN := "cache";
  DATA_PTN := "data";
  g_2ndstageboot_part := "data";
  g_2ndstageboot_dir := "2ndstageboot";
  g_autoboot_delay_secs := 8;
  g_update_pause := 1
|}.

(** The same world with a key pressed in the windows [keys] selects. *)
Definition with_keys (w : env) (keys : nat -> bool) : env := {|
  disk_device := disk_device w;
  find_part := find_part w;
  find_part_device := find_part_device w;
  apply_disk_config := apply_disk_config w;
  is_valid_blkdev := is_valid_blkdev w;
  execute_command := execute_command w;
  asprintf_ok := asprintf_ok w;
  strdup_ok := strdup_ok w;
  popen_ok := popen_ok w;
  fwrite := fwrite w;
  open_ok := open_ok w;
  lseek := lseek w;
  read_superblock := read_superblock w;
  reboot_ok := reboot_ok w;
  write_stitch_image := write_stitch_image w;
  mount_partition := mount_partition w;
  kexec_ok := kexec_ok w;
  mount_partition_device := mount_partition_device w;
  stat := stat w;
  ext4_filesystem_checks := ext4_filesystem_checks w;
  erase_partition := erase_partition w;
  platform_provision_function := platform_provision_function w;
  key_event := keys;
  DEVICE_NAME := DEVICE_NAME w;
  CACHE_PTN := CACHE_PTN w;
  DATA_PTN := DATA_PTN w;
  g_2ndstageboot_part := g_2ndstageboot_part w;
  g_2ndstageboot_dir := g_2ndstageboot_dir w;
  g_autoboot_delay_secs := g_autoboot_delay_secs w;
  g_update_pause := g_update_pause w
|}.

(** "boot" has a device node; "ghost" is declared but has none. *)
Definition board : layout :=
  [("boot", Some "/dev/mmcblk0p1"); ("ghost", None)].

(** A layout with the partitions an update needs. *)
Definition board_full : layout :=
  [("boot", Some "/dev/mmcblk0p1"); ("cache", Some "/dev/mmcblk0p2");
   ("data", Some "/dev/mmcblk0p3")].

Definition sdcard : Volume :=
  {| mount_point := "/sdcard"; fs_type := "vfat";
     device := "/dev/mmcblk1p1"; device2 := None |}.

Definition plain10 : list byte := [x00; x01; x02; x03; x04; x05; x06; x07; x08; x09].

(* ------------------------------------------------------------------ *)
(** ** Vocabulary of the statements *)

(** A name the flash handler looks up in the disk layout: neither the
    literal "disk" nor an "osip" index. *)
Definition names_partition (part_name : string) : bool :=
  negb (part_name =? "disk")%string && negb (prefix "osip" part_name).

(** Step 1 of the flash workflow: the device node and the partition record
    the handler goes on with, when it goes on. *)
Definition destination (w : env) (part_name : string)
  : option (string * option part_info) :=
  if (part_name =? "disk")%string then Some (disk_device w, None)
  else if prefix "osip" part_name then None
  else match find_part_device w part_name with
       | None => None
       | Some dev => Some (dev, find_part w part_name)
       end.

(** Steps 2 to 6 succeed: the node is a block device, the header test reads
    inside the payload, the pipe opens and accepts every byte, and a write
    to the disk node itself is followed by a successful re-read. *)
Definition image_written (w : env) (data : list byte) (g : globals)
  (dev : string) : Prop :=
  is_valid_blkdev w dev = true
  /\ (exists gz,
        gzip_header data g = ([], g, Val gz)
        /\ let cmd := if gz then gzip_dd dev else raw_dd dev in
           asprintf_ok w cmd = true
           /\ popen_ok w cmd = true
           /\ fwrite w cmd data = List.length data)
  /\ ((dev =? disk_device w)%string = true ->
      open_ok w OpenForReread dev = true).

(** The handler reads [magic] as [superblock.s_magic]: the device opens,
    the seek lands on the superblock offset and the read is complete. *)
Definition superblock_reads (w : env) (dev : string) (magic : Z) : Prop :=
  open_ok w OpenForSuperblock dev = true
  /\ lseek w dev EXT_SUPERBLOCK_OFFSET = EXT_SUPERBLOCK_OFFSET
  /\ read_superblock w dev = Some magic.

(** The external commands of a run, in order. *)
Definition is_exec (e : event) : bool :=
  match e with Exec _ _ => true | _ => false end.

(** The repair sequence on [dev], as the list of the commands run with
    their exit statuses: the resize; after a resize that exited with 0, the
    check; after a check that exited with 0 or 1, the tune; nothing before,
    between or after them. *)
Definition repair_sequence (dev : string) (execs : list event) : Prop :=
  match execs with
  | [Exec c1 s1] => c1 = resize2fs dev /\ s1 <> 0
  | [Exec c1 s1; Exec c2 s2] =>
      c1 = resize2fs dev /\ s1 = 0
      /\ c2 = e2fsck dev /\ ~ (s2 = 0 \/ s2 = 1)
  | [Exec c1 s1; Exec c2 s2; Exec c3 s3] =>
      c1 = resize2fs dev /\ s1 = 0
      /\ c2 = e2fsck dev /\ (s2 = 0 \/ s2 = 1)
      /\ c3 = tune2fs dev
  | _ => False
  end.

(** The repair sequence is run: the external commands of the run are the
    repair sequence on [dev], each step following the exit status of the
    one before it. *)
Definition runs_repair (dev : string) (t : list event) : Prop :=
  repair_sequence dev (filter is_exec t).

(** The command lines of the three repair steps can be allocated. *)
Definition repair_allocates (w : env) (dev : string) : Prop :=
  asprintf_ok w (resize2fs dev) = true
  /\ asprintf_ok w (e2fsck dev) = true
  /\ asprintf_ok w (tune2fs dev) = true.









(** A gzip member as RFC 1952 lays it out: ID1, ID2, CM = 8 (deflate),
    FLG = 0 (no optional fields), MTIME, XFL, OS. *)
Definition gzip_no_flags : list byte :=
  [x1f; x8b; x08; x00; x00; x00; x00; x00; x00; x03].

(** The same ten bytes with CM = 0 (not deflate) and FLG = 8. *)
Definition not_deflate : list byte :=
  [x1f; x8b; x00; x08; x00; x00; x00; x00; x00; x03].

(** Globals after an update was detected and deferred. *)
Definition g_deferred : globals :=
  {| autoboot_enabled := 0;
     g_update_location := Some "/sdcard/mfld.auto-ota.zip";
     clock := 10 |}.

(* ------------------------------------------------------------------ *)
(** ** droidboot.c: the input callback and the boot parameters *)

(** [struct input_event], as far as the callback reads it. *)
Record input_event := { ev_type : Z; ev_code : Z; ev_value : Z }.

(** Modelled from the spec: the event type code of linux/input.h, which is
    not part of the sources; the callback only compares against it. *)
Definition EV_KEY : Z := 1.

(** [got] is what [ev_get_input] delivered: [None] when it returned
    non-zero. *)
Definition input_callback (got : option input_event) : M Z :=
  match got with
  | None => ret (-1)
  | Some ev =>
      (if ev_type ev =? EV_KEY then disable_autoboot else ret tt) ;;
      ret 0
  end.

Module Cmdline.

(** The variables [parse_cmdline_option] assigns. *)
Record options := {
  g_use_autoboot : Z;
  g_2ndstageboot_part : string;
  g_2ndstageboot_dir : string;
  g_autoboot_delay_secs : Z;
  g_scratch_size : Z;
  g_min_battery : Z;
  g_update_pause : Z
}.

(** Their initial values. *)
Definition initial (w : env) : options := {|
  g_use_autoboot := 0;
  g_2ndstageboot_part := DATA_PTN w;
  g_2ndstageboot_dir := "2ndstageboot";
  g_autoboot_delay_secs := 8;
  g_scratch_size := 400;
  g_min_battery := 10;
  g_update_pause := 0
|}.

(** [strchr(name, '=')] and [*value++ = 0]: the text before the first '='
    and the text after it. *)
Fixpoint split_eq (s : string) : option (string * string) :=
  match s with
  | EmptyString => None
  | String c s' =>
      if Ascii.eqb c "=" then Some (EmptyString, s')
      else match split_eq s' with
           | Some (name, value) => Some (String c name, value)
           | None => None
           end
  end.

Definition parse_cmdline_option (w : env) (token : string) (o : options)
  : res options :=
  match split_eq token with
  | None => Val o
  | Some (name, value) =>
      if (name =? "")%string then Val o
      else if negb (prefix "droidboot" name) then Val o
      else if (name =? "droidboot.bootloader")%string then
        Val {| g_use_autoboot := atoi value;
               g_2ndstageboot_part := g_2ndstageboot_part o;
               g_2ndstageboot_dir := g_2ndstageboot_dir o;
               g_autoboot_delay_secs := g_autoboot_delay_secs o;
               g_scratch_size := g_scratch_size o;
               g_min_battery := g_min_battery o;
               g_update_pause := g_update_pause o |}
      else if (name =? "droidboot.delay")%string then
        Val {| g_use_autoboot := g_use_autoboot o;
               g_2ndstageboot_part := g_2ndstageboot_part o;
               g_2ndstageboot_dir := g_2ndstageboot_dir o;
               g_autoboot_delay_secs := atoi value;
               g_scratch_size := g_scratch_size o;
               g_min_battery := g_min_battery o;
               g_update_pause := g_update_pause o |}
      else if (name =? "droidboot.scratch")%string then
        Val {| g_use_autoboot := g_use_autoboot o;
               g_2ndstageboot_part := g_2ndstageboot_part o;
               g_2ndstageboot_dir := g_2ndstageboot_dir o;
               g_autoboot_delay_secs := g_autoboot_delay_secs o;
               g_scratch_size := atoi value;
               g_min_battery := g_min_battery o;
               g_update_pause := g_update_pause o |}
      else if (name =? "droidboot.minbatt")%string then
        Val {| g_use_autoboot := g_use_autoboot o;
               g_2ndstageboot_part := g_2ndstageboot_part o;
               g_2ndstageboot_dir := g_2ndstageboot_dir o;
               g_autoboot_delay_secs := g_autoboot_delay_secs o;
               g_scratch_size := g_scratch_size o;
               g_min_battery := atoi value;
               g_update_pause := g_update_pause o |}
      else if (name =? "droidboot.bootpart")%string then
        if negb (strdup_ok w value) then Halt Died
        else
        Val {| g_use_autoboot := g_use_autoboot o;
               g_2ndstageboot_part := value;
               g_2ndstageboot_dir := g_2ndstageboot_dir o;
               g_autoboot_delay_secs := g_autoboot_delay_secs o;
               g_scratch_size := g_scratch_size o;
               g_min_battery := g_min_battery o;
               g_update_pause := g_update_pause o |}
      else if (name =? "droidboot.bootdir")%string then
        (* the source assigns g_2ndstageboot_part here as well *)
        if negb (strdup_ok w value) then Halt Died
        else
        Val {| g_use_autoboot := g_use_autoboot o;
               g_2ndstageboot_part := value;
               g_2ndstageboot_dir := g_2ndstageboot_dir o;
               g_autoboot_delay_secs := g_autoboot_delay_secs o;
               g_scratch_size := g_scratch_size o;
               g_min_battery := g_min_battery o;
               g_update_pause := g_update_pause o |}
      else if (name =? "droidboot.updatepause")%string then
        Val {| g_use_autoboot := g_use_autoboot o;
               g_2ndstageboot_part := g_2ndstageboot_part o;
               g_2ndstageboot_dir := g_2ndstageboot_dir o;
               g_autoboot_delay_secs := g_autoboot_delay_secs o;
               g_scratch_size := g_scratch_size o;
               g_min_battery := g_min_battery o;
               g_update_pause := atoi value |}
      else Val o
  end.

(** No '=' in [s]. *)
Fixpoint no_equals (s : string) : bool :=
  match s with
  | EmptyString => true
  | String c s' => negb (Ascii.eqb c "=") && no_equals s'
  end.

(** The keys the parser knows. *)
Definition known_keys : list string :=
  [ "droidboot.bootloader"; "droidboot.delay"; "droidboot.scratch";
    "droidboot.minbatt"; "droidboot.bootpart"; "droidboot.bootdir";
    "droidboot.updatepause" ].

End Cmdline.

(* ------------------------------------------------------------------ *)
(** ** More vocabulary *)

(** The command line of the erase handler. *)
Definition make_ext4fs (name dev : string) : string :=
  "/system/bin/make_ext4fs -L " ++ name ++ " " ++ dev.

(** [n] blanks in front of [s]. *)
Fixpoint pad (n : nat) (s : string) : string :=
  match n with
  | O => s
  | S n' => String " " (pad n' s)
  end.

(** The path of the second-stage images handed to [kexec_linux]. *)
Definition second_stage_path (w : env) : string :=
  substring 0 (PATH_MAX - 1)
    ("/mnt/" ++ g_2ndstageboot_part w ++ "/" ++ g_2ndstageboot_dir w ++ "/").

(** The update package on a volume, relative to the volume's mount point
    in the running system. *)
Definition update_package (w : env) (vol : Volume) : string :=
  mount_point vol ++ "/" ++ AUTO_UPDATE_FNAME w.

(** The events that change the internal disk during an update. *)
Definition needs_lock (e : event) : bool :=
  match e with
  | PlatformProvision | FilesystemChecks _ | ErasePartition _
  | ApplySwUpdate _ => true
  | _ => false
  end.

(** Follow [action_mutex] along a trace, from [held]: [None] when the
    mutex is taken twice, released while free, or an event that needs it
    occurs while it is free; otherwise whether it is held at the end. *)
Fixpoint lock_scan (held : bool) (t : list event) : option bool :=
  match t with
  | [] => Some held
  | Lock :: t' => if held then None else lock_scan true t'
  | Unlock :: t' => if held then lock_scan false t' else None
  | e :: t' =>
      if needs_lock e && negb held then None else lock_scan held t'
  end.


(** The bench world with the block-device test answered by [valid]. *)
Definition with_blkdev (w : env) (valid : string -> bool) : env := {|
  disk_device := disk_device w;
  find_part := find_part w;
  find_part_device := find_part_device w;
  apply_disk_config := apply_disk_config w;
  is_valid_blkdev := valid;
  execute_command := execute_command w;
  asprintf_ok := asprintf_ok w;
  strdup_ok := strdup_ok w;
  popen_ok := popen_ok w;
  fwrite := fwrite w;
  open_ok := open_ok w;
  lseek := lseek w;
  read_superblock := read_superblock w;
  reboot_ok := reboot_ok w;
  write_stitch_image := write_stitch_image w;
  mount_partition := mount_partition w;
  kexec_ok := kexec_ok w;
  mount_partition_device := mount_partition_device w;
  stat := stat w;
  ext4_filesystem_checks := ext4_filesystem_checks w;
  erase_partition := erase_partition w;
  platform_provision_function := platform_provision_function w;
  key_event := key_event w;
  DEVICE_NAME := DEVICE_NAME w;
  CACHE_PTN := CACHE_PTN w;
  DATA_PTN := DATA_PTN w;
  g_2ndstageboot_part := g_2ndstageboot_part w;
  g_2ndstageboot_dir := g_2ndstageboot_dir w;
  g_autoboot_delay_secs := g_autoboot_delay_secs w;
  g_update_pause := g_update_pause w
|}.

(** The events of a countdown: display and sleep. *)
Definition is_countdown_event (e : event) : bool :=
  match e with
  | UiShowProgress _ | UiResetProgress | Sleep _ => true
  | _ => false
  end.

(** No key event in the windows [from], ..., [from + n - 1]. *)
Fixpoint quiet (w : env) (from n : nat) : bool :=
  match n with
  | O => true
  | S n' => negb (key_event w from) && quiet w (S from) n'
  end.

(* ------------------------------------------------------------------ *)
(** ** Symbolic execution of a run *)

(** Unfold the monad, keep the oracles and the string functions folded. *)
Ltac mstep :=
  repeat (progress (
    unfold bind, ret, emit, stop, halt_with, get, put, void, when, goto_out,
           die, exec, fastboot_fail, fastboot_okay, data_byte,
           set_autoboot_enabled, set_update_location;
    cbn beta iota zeta;
    cbn [negb andb orb app fst snd
         trace_of globals_of result_of
         autoboot_enabled g_update_location clock])).

(** Split on the test the run is waiting for: the conditional applied to
    the current globals is the next one in program order. *)
Ltac fork :=
  match goal with
  | |- context [(if negb ?c then _ else _) ?g] => destruct c eqn:?
  | |- context [(if ?c then _ else _) ?g] => destruct c eqn:?
  | |- context [(match ?c with Some _ => _ | None => _ end) ?g] =>
      destruct c eqn:?
  end; mstep.

Ltac forks := repeat fork.

(** Every path through [cmd_flash], one goal per path. *)
Ltac flash_paths :=
  unfold cmd_flash, probe_ext, ext_checks, gzip_header; mstep; forks.

(** Name the run, so that a statement about it is split once. *)
Ltac name_run :=
  match goal with
  | |- context [trace_of ?run] =>
      let t := fresh "t" in
      let g' := fresh "g'" in
      let r := fresh "r" in
      let E := fresh "E" in
      destruct run as [[t g'] r] eqn:E;
      cbn [trace_of result_of globals_of fst snd]; cbn zeta; revert E
  | |- context [result_of ?run] =>
      let t := fresh "t" in
      let g' := fresh "g'" in
      let r := fresh "r" in
      let E := fresh "E" in
      destruct run as [[t g'] r] eqn:E;
      cbn [trace_of result_of globals_of fst snd]; cbn zeta; revert E
  end.

(** Membership in a trace that is written out. *)
Ltac in_inv H :=
  cbn [In] in H;
  repeat match type of H with _ \/ _ => destruct H as [H | H] end;
  try discriminate H; try contradiction.

Ltac in_list := cbn [In]; repeat (first [left; reflexivity | right]).

Ltac props :=
  repeat match goal with
  | H : (_ =? _) = true |- _ => apply Z.eqb_eq in H
  | H : (_ =? _) = false |- _ => apply Z.eqb_neq in H
  end.

Ltac dstep := unfold input_window, disable_autoboot; mstep.

(* ------------------------------------------------------------------ *)
(** ** Runs on the bench *)

Example erase_cache_not_in_layout :
  cmd_erase (bench board 0x83 0xEF53 0 0) "cache" [] g0
  = ([Reply (FAIL "unknown partition name")], g0, Val tt).
Proof. reflexivity. Qed.

Example erase_linux_partition :
  cmd_erase (bench board 0x83 0xEF53 0 0) "boot" [] g0
  = ([Exec "/system/bin/make_ext4fs -L boot /dev/mmcblk0p1" 0; Reply (OKAY "")],
     g0, Val tt).
Proof. reflexivity. Qed.

Example erase_other_partition_type :
  cmd_erase (bench board 0x0b 0xEF53 0 0) "boot" [] g0
  = ([Reply (FAIL "Unsupported partition type")], g0, Val tt).
Proof. reflexivity. Qed.

Example oem_partition_applies_layout :
  cmd_oem (bench board 0x83 0xEF53 0 0) " partition" [] g0
  = ([ApplyDiskConfig; Reply (OKAY "")], g0, Val tt).
Proof. reflexivity. Qed.

Example oem_system_runs_the_rest_of_the_line :
  cmd_oem (bench board 0x83 0xEF53 0 0) "  system   ls -l" [] g0
  = ([Exec "ls -l" 0; Reply (OKAY "")], g0, Val tt).
Proof. reflexivity. Qed.

Example reboot_replies_before_restarting :
  cmd_reboot (bench board 0x83 0xEF53 0 0) "" [] g0
  = ([Reply (OKAY ""); Sync; Reboot], g0, Halt Rebooted).
Proof. reflexivity. Qed.

Example flash_disk_rereads_partition_table :
  cmd_flash (bench board 0x83 0xEF53 0 0) "disk" plain10 g0
  = ([Popen (raw_dd "/dev/mmcblk0"); Fwrite plain10 10; Pclose; Sync;
      Open "/dev/mmcblk0"; Reread "/dev/mmcblk0"; Reply (OKAY "")],
     g0, Val tt).
Proof. reflexivity. Qed.

Example flash_osip_index :
  cmd_flash (bench board 0x83 0xEF53 0 0) "osip3" plain10 g0
  = ([StitchImage plain10 3; Reply (OKAY "")], g0, Val tt).
Proof. reflexivity. Qed.

(* ------------------------------------------------------------------ *)
(** ** The gzip test *)

(** With four bytes or more the test compares bytes 0, 1 and 3. *)
Lemma gzip_header_long (data : list byte) (b0 b1 b2 b3 : byte)
  (rest : list byte) (g : globals) :
  data = b0 :: b1 :: b2 :: b3 :: rest ->
  gzip_header data g
  = ([], g, Val (Byte.eqb b0 x1f && Byte.eqb b1 x8b && Byte.eqb b3 x08)).
Proof.
  intros ->. unfold gzip_header.
  change (2 <? List.length (b0 :: b1 :: b2 :: b3 :: rest))%nat with true.
  mstep. cbn [nth_error]. mstep.
  destruct (Byte.eqb b0 x1f); mstep; [| reflexivity].
  destruct (Byte.eqb b1 x8b); mstep; reflexivity.
Qed.

(** With two bytes or fewer the test answers no without reading. *)
Lemma gzip_header_short (data : list byte) (g : globals) :
  (List.length data <= 2)%nat ->
  gzip_header data g = ([], g, Val false).
Proof.
  intros H. unfold gzip_header.
  destruct (Nat.ltb_spec 2 (List.length data)); [lia | reflexivity].
Qed.

(** With exactly three bytes that begin 0x1F 0x8B the test reads index 3. *)
Lemma gzip_header_three (b2 : byte) (g : globals) :
  gzip_header [x1f; x8b; b2] g = ([], g, Halt (BadRead 3)).
Proof. reflexivity. Qed.

(** C10: there is a payload of exactly three bytes, beginning 0x1F 0x8B,
    on which the gzip test of the flash handler reads index 3, one past the
    last byte: the guard [sz > 2] lets the test through to the read of
    [data_bytes[3]], the total lookup answers [None] there, and both the
    test alone and the handler as a whole stop at that read. *)
Theorem gzip_test_reads_past_three_byte_payload :
  exists data : list byte,
    List.length data = 3%nat
    /\ nth_error data 0 = Some x1f
    /\ nth_error data 1 = Some x8b
    /\ nth_error data 3 = None
    /\ (forall g, gzip_header data g = ([], g, Halt (BadRead 3)))
    /\ (forall g,
          result_of (cmd_flash (bench board 0x83 0xEF53 0 0) "boot" data g)
          = Halt (BadRead 3)).
Proof.
  exists [x1f; x8b; x08]. repeat split.
Qed.

(** C4, at the failing inputs: a payload that begins 0x1F 0x8B and carries
    the deflate method byte 8 at offset 2, with flag byte 0, is written
    raw, through dd alone; a payload whose method byte is 0 but whose flag
    byte at offset 3 is 8 goes through gzip; and a three-byte payload with
    the magic is neither written raw nor decompressed, the test reads past
    it.  The test looks at offset 3, where the gzip header keeps its flags,
    behind a guard that covers offset 2. *)
Theorem cmd_flash_tests_flag_byte_not_method_byte :
  cmd_flash (bench board 0x0b 0 0 0) "boot" gzip_no_flags g0
  = ([Popen (raw_dd "/dev/mmcblk0p1"); Fwrite gzip_no_flags 10;
      Pclose; Sync; Reply (OKAY "")], g0, Val tt)
  /\
  cmd_flash (bench board 0x0b 0 0 0) "boot" not_deflate g0
  = ([Popen (gzip_dd "/dev/mmcblk0p1"); Fwrite not_deflate 10;
      Pclose; Sync; Reply (OKAY "")], g0, Val tt)
  /\
  cmd_flash (bench board 0x0b 0 0 0) "boot" [x1f; x8b; x08] g0
  = ([], g0, Halt (BadRead 3)).
Proof.
  repeat split.
Qed.

(* ------------------------------------------------------------------ *)
(** ** Unknown partitions *)

Lemma names_partition_inv (part_name : string) :
  names_partition part_name = true ->
  (part_name =? "disk")%string = false /\ prefix "osip" part_name = false.
Proof.
  unfold names_partition. intros H.
  apply andb_true_iff in H. destruct H as [H1 H2].
  apply negb_true_iff in H1. apply negb_true_iff in H2. now split.
Qed.

(** C3, refuted as stated: the layout of the bench has no partition
    "disk", so both lookups of that name fail; yet "flash:disk" makes no
    lookup, writes the ten bytes of the payload to the node of the whole
    disk, re-reads the partition table and replies success. *)
Lemma flash_disk_needs_no_partition :
  find_part (bench board 0x83 0xEF53 0 0) "disk" = None
  /\ find_part_device (bench board 0x83 0xEF53 0 0) "disk" = None
  /\ cmd_flash (bench board 0x83 0xEF53 0 0) "disk" plain10 g0
     = ([Popen (raw_dd "/dev/mmcblk0"); Fwrite plain10 10; Pclose; Sync;
         Open "/dev/mmcblk0"; Reread "/dev/mmcblk0"; Reply (OKAY "")],
        g0, Val tt)
  /\ bytes_written
       (trace_of (cmd_flash (bench board 0x83 0xEF53 0 0) "disk" plain10 g0))
     = 10%nat.
Proof. repeat split. Qed.

(** C3, amended: when the lookup of the partition name fails, the erase
    handler, and the flash handler for every name other than the literal
    "disk" and the names that begin with "osip", each send one failure
    reply whose reason begins with "unknown partition", return to the
    dispatcher, and do nothing else: the trace of the run is that single
    reply, so no device node is opened or written.  The erase handler
    looks the name up with [find_part]; the flash handler looks up the
    names that are neither "disk" nor an "osip" index with
    [find_part_device]. *)
Theorem unknown_partition_fails_without_io
  (w : env) (part_name : string) (data : list byte) (g : globals) :
  (find_part w part_name = None ->
   exists reason,
     cmd_erase w part_name data g = ([Reply (FAIL reason)], g, Val tt)
     /\ prefix "unknown partition" reason = true)
  /\
  (names_partition part_name = true ->
   find_part_device w part_name = None ->
   exists reason,
     cmd_flash w part_name data g = ([Reply (FAIL reason)], g, Val tt)
     /\ prefix "unknown partition" reason = true).
Proof.
  split.
  - intros Hfind. exists "unknown partition name". split; [| reflexivity].
    unfold cmd_erase. mstep. rewrite Hfind. mstep. reflexivity.
  - intros Hname Hdev. apply names_partition_inv in Hname.
    destruct Hname as [Hdisk Hosip].
    exists "unknown partition specified". split; [| reflexivity].
    unfold cmd_flash. mstep. rewrite Hdisk, Hosip, Hdev. mstep. reflexivity.
Qed.

Lemma unknown_partition_fails_without_io_witness :
  find_part (bench board 0x83 0xEF53 0 0) "cache" = None
  /\ names_partition "cache" = true
  /\ find_part_device (bench board 0x83 0xEF53 0 0) "cache" = None
  /\ (exists reason,
        cmd_erase (bench board 0x83 0xEF53 0 0) "cache" plain10 g0
        = ([Reply (FAIL reason)], g0, Val tt)
        /\ prefix "unknown partition" reason = true)
  /\ (exists reason,
        cmd_flash (bench board 0x83 0xEF53 0 0) "cache" plain10 g0
        = ([Reply (FAIL reason)], g0, Val tt)
        /\ prefix "unknown partition" reason = true).
Proof.
  destruct (unknown_partition_fails_without_io
              (bench board 0x83 0xEF53 0 0) "cache" plain10 g0) as [He Hf].
  split; [reflexivity |]. split; [reflexivity |]. split; [reflexivity |].
  split; [apply He | apply Hf]; reflexivity.
Defined.

(* ------------------------------------------------------------------ *)
(** ** The flash handler and the partition type *)

(** C1, refuted as stated: "flash:boot" with a ten-byte payload that is not
    gzip, to a partition whose type is not the Linux type, is answered
    with success, and all ten bytes are written. *)
Lemma cmd_flash_writes_unsupported_type :
  ptn_type {| ptn_name := "boot"; ptn_type := 0x0b |} <> PC_PART_TYPE_LINUX
  /\ List.length plain10 = 10%nat
  /\ gzip_header plain10 g0 = ([], g0, Val false)
  /\ find_part (bench board 0x0b 0 0 0) "boot"
     = Some {| ptn_name := "boot"; ptn_type := 0x0b |}
  /\ replies (trace_of (cmd_flash (bench board 0x0b 0 0 0) "boot" plain10 g0))
     = [OKAY ""]
  /\ bytes_written
       (trace_of (cmd_flash (bench board 0x0b 0 0 0) "boot" plain10 g0))
     = 10%nat
  /\ ~ (replies
          (trace_of (cmd_flash (bench board 0x0b 0 0 0) "boot" plain10 g0))
        = [FAIL "Unsupported partition type"]
        /\ bytes_written
             (trace_of (cmd_flash (bench board 0x0b 0 0 0) "boot" plain10 g0))
           = 0%nat).
Proof.
  repeat split; try reflexivity.
  - cbv. discriminate.
  - intros [H _]. vm_compute in H. discriminate.
Qed.

(** No run of the flash handler sends the reply of the erase handler's
    type switch. *)
Lemma cmd_flash_never_unsupported (w : env) (part_name : string)
  (data : list byte) (g : globals) :
  ~ In (Reply (FAIL "Unsupported partition type"))
       (trace_of (cmd_flash w part_name data g)).
Proof.
  name_run. flash_paths.
  all: intros [= <- <- <-] Hin; in_inv Hin.
Qed.

(** C1, amended: for a ten-byte payload that the header test finds not to
    be gzip, flashed to a named partition whose type is not the Linux
    type, the handler never replies "Unsupported partition type"; when the
    device node is a block device other than the disk node, and the dd
    pipe opens and accepts all ten bytes, the handler writes the ten bytes
    raw, runs no repair and replies success. *)
Theorem flash_writes_any_partition_type (w : env) (part_name : string)
  (data : list byte) (g : globals) (dev : string) (p : part_info) :
  List.length data = 10%nat ->
  gzip_header data g = ([], g, Val false) ->
  names_partition part_name = true ->
  find_part_device w part_name = Some dev ->
  find_part w part_name = Some p ->
  ptn_type p <> PC_PART_TYPE_LINUX ->
  ~ In (Reply (FAIL "Unsupported partition type"))
       (trace_of (cmd_flash w part_name data g))
  /\ (is_valid_blkdev w dev = true ->
      asprintf_ok w (raw_dd dev) = true ->
      popen_ok w (raw_dd dev) = true ->
      fwrite w (raw_dd dev) data = 10%nat ->
      (dev =? disk_device w)%string = false ->
      cmd_flash w part_name data g
      = ([Popen (raw_dd dev); Fwrite data 10; Pclose; Sync; Reply (OKAY "")],
         g, Val tt)).
Proof.
  intros Hlen Hgz Hname Hdev Hptn Hty. split.
  - apply cmd_flash_never_unsupported.
  - intros Hblk Hfmt Hpipe Hall Hnode.
    apply names_partition_inv in Hname. destruct Hname as [Hdisk Hosip].
    apply Z.eqb_neq in Hty.
    unfold cmd_flash, probe_ext. mstep.
    rewrite Hdisk, Hosip, Hdev. mstep.
    rewrite Hblk. mstep. rewrite Hgz. mstep.
    rewrite Hfmt. mstep. rewrite Hpipe. mstep.
    rewrite Hall, Hlen. cbn [Nat.eqb]. mstep.
    rewrite Hnode. mstep. rewrite Hptn. mstep. rewrite Hty. mstep.
    reflexivity.
Qed.

Lemma flash_writes_any_partition_type_witness :
  List.length plain10 = 10%nat
  /\ gzip_header plain10 g0 = ([], g0, Val false)
  /\ names_partition "boot" = true
  /\ find_part_device (bench board 0x0b 0 0 0) "boot" = Some "/dev/mmcblk0p1"
  /\ find_part (bench board 0x0b 0 0 0) "boot"
     = Some {| ptn_name := "boot"; ptn_type := 0x0b |}
  /\ ptn_type {| ptn_name := "boot"; ptn_type := 0x0b |} <> PC_PART_TYPE_LINUX
  /\ ~ In (Reply (FAIL "Unsupported partition type"))
          (trace_of (cmd_flash (bench board 0x0b 0 0 0) "boot" plain10 g0))
  /\ cmd_flash (bench board 0x0b 0 0 0) "boot" plain10 g0
     = ([Popen (raw_dd "/dev/mmcblk0p1"); Fwrite plain10 10; Pclose; Sync;
         Reply (OKAY "")], g0, Val tt).
Proof.
  assert (Hty : ptn_type {| ptn_name := "boot"; ptn_type := 0x0b |}
                <> PC_PART_TYPE_LINUX) by (cbv; discriminate).
  destruct (flash_writes_any_partition_type
              (bench board 0x0b 0 0 0) "boot" plain10 g0 "/dev/mmcblk0p1"
              {| ptn_name := "boot"; ptn_type := 0x0b |}
              eq_refl eq_refl eq_refl eq_refl eq_refl Hty) as [Hnever Hraw].
  repeat (split; [reflexivity |]).
  split; [exact Hty |]. split; [exact Hnever |].
  apply Hraw; reflexivity.
Defined.

(* ------------------------------------------------------------------ *)
(** ** The write and the repair sequence *)

(** C7: in every run of the flash handler in which the write pipe accepts
    fewer bytes than the payload holds, the only reply is the failure
    "image write failure": no success reply is sent, and the handler
    returns to the dispatcher. *)
Theorem short_write_fails (w : env) (part_name : string) (data : list byte)
  (g : globals) (payload : list byte) (accepted : nat) :
  In (Fwrite payload accepted) (trace_of (cmd_flash w part_name data g)) ->
  (accepted < List.length data)%nat ->
  replies (trace_of (cmd_flash w part_name data g))
  = [FAIL "image write failure"]
  /\ (forall msg,
        ~ In (Reply (OKAY msg)) (trace_of (cmd_flash w part_name data g)))
  /\ result_of (cmd_flash w part_name data g) = Val tt.
Proof.
  name_run. flash_paths.
  all: intros [= <- <- <-] Hin Hlt.
  all: in_inv Hin.
  all: injection Hin as <- <-.
  all: try match goal with
       | H : (_ =? _)%nat = true |- _ => apply Nat.eqb_eq in H; lia
       end.
  all: repeat split; try reflexivity.
  all: intros msg Hok; in_inv Hok.
Qed.

Lemma short_write_fails_witness :
  In (Fwrite plain10 7)
     (trace_of (cmd_flash (bench board 0x83 0xEF53 0 3) "boot" plain10 g0))
  /\ (7 < List.length plain10)%nat
  /\ replies (trace_of (cmd_flash (bench board 0x83 0xEF53 0 3) "boot" plain10 g0))
     = [FAIL "image write failure"]
  /\ (forall msg,
        ~ In (Reply (OKAY msg))
             (trace_of (cmd_flash (bench board 0x83 0xEF53 0 3) "boot" plain10 g0)))
  /\ result_of (cmd_flash (bench board 0x83 0xEF53 0 3) "boot" plain10 g0)
     = Val tt.
Proof.
  assert (Hin : In (Fwrite plain10 7)
     (trace_of (cmd_flash (bench board 0x83 0xEF53 0 3) "boot" plain10 g0)))
    by (vm_compute; tauto).
  assert (Hlt : (7 < List.length plain10)%nat) by (cbn; lia).
  split; [exact Hin |]. split; [exact Hlt |].
  exact (short_write_fails (bench board 0x83 0xEF53 0 3) "boot" plain10 g0
           plain10 7 Hin Hlt).
Defined.

(** C6: in every run of the flash handler in which the checker is run and
    exits with [status]: when [status] is 0 or 1 the checker step does not
    fail and the sequence goes on to the tune step, which is run as soon as
    its command line can be allocated; with any other status, 2 or more or
    negative, the only reply is the failure "fsck of filesystem failed"
    and the tune step is not run. *)
Theorem fsck_exit_code (w : env) (part_name : string) (data : list byte)
  (g : globals) (dev : string) (status : Z) :
  In (Exec (e2fsck dev) status) (trace_of (cmd_flash w part_name data g)) ->
  let t := trace_of (cmd_flash w part_name data g) in
  (status = 0 \/ status = 1 ->
     ~ In (Reply (FAIL "fsck of filesystem failed")) t
     /\ (asprintf_ok w (tune2fs dev) = true ->
         In (Exec (tune2fs dev) (execute_command w (tune2fs dev))) t))
  /\ (~ (status = 0 \/ status = 1) ->
     replies t = [FAIL "fsck of filesystem failed"]
     /\ forall s, ~ In (Exec (tune2fs dev) s) t).
Proof.
  name_run. flash_paths.
  all: intros [= <- <- <-] Hin.
  all: in_inv Hin.
  all: injection Hin as Hc Hs; subst.
  all: split; intros Hst.
  all: try match goal with
       | H : (_ <? 0) || (_ >? 1) = true |- _ =>
           apply orb_true_iff in H;
           rewrite Z.ltb_lt, Z.gtb_ltb, Z.ltb_lt in H; lia
       | H : (_ <? 0) || (_ >? 1) = false |- _ =>
           apply orb_false_iff in H;
           rewrite Z.ltb_ge, Z.gtb_ltb, Z.ltb_ge in H; lia
       end.
  all: split.
  all: try reflexivity.
  all: try (intros Hin; in_inv Hin; fail).
  all: try (intros s Hin; in_inv Hin; fail).
  all: intros Ha; in_list; congruence.
Qed.

Lemma fsck_exit_code_witness :
  In (Exec (e2fsck "/dev/mmcblk0p1") 2)
     (trace_of (cmd_flash (bench board 0x83 0xEF53 2 0) "boot" plain10 g0))
  /\ ~ (2 = 0 \/ 2 = 1)
  /\ replies (trace_of (cmd_flash (bench board 0x83 0xEF53 2 0) "boot" plain10 g0))
     = [FAIL "fsck of filesystem failed"]
  /\ forall s,
       ~ In (Exec (tune2fs "/dev/mmcblk0p1") s)
            (trace_of (cmd_flash (bench board 0x83 0xEF53 2 0) "boot" plain10 g0)).
Proof.
  assert (Hin : In (Exec (e2fsck "/dev/mmcblk0p1") 2)
     (trace_of (cmd_flash (bench board 0x83 0xEF53 2 0) "boot" plain10 g0)))
    by (vm_compute; tauto).
  assert (Hst : ~ (2 = 0 \/ 2 = 1)) by lia.
  split; [exact Hin |]. split; [exact Hst |].
  exact (proj2 (fsck_exit_code (bench board 0x83 0xEF53 2 0) "boot" plain10 g0
                  "/dev/mmcblk0p1" 2 Hin) Hst).
Defined.

(** The checker exiting with 1 on the bench: the run goes on to tune2fs
    and ends in success. *)
Example fsck_repaired_filesystem_is_success :
  cmd_flash (bench board 0x83 0xEF53 1 0) "boot" plain10 g0
  = ([Popen (raw_dd "/dev/mmcblk0p1"); Fwrite plain10 10; Pclose; Sync;
      Open "/dev/mmcblk0p1"; Seek "/dev/mmcblk0p1" 1024;
      ReadSuperblock "/dev/mmcblk0p1";
      Exec (resize2fs "/dev/mmcblk0p1") 0;
      Exec (e2fsck "/dev/mmcblk0p1") 1;
      Exec (tune2fs "/dev/mmcblk0p1") 0;
      Reply (OKAY "")], g0, Val tt).
Proof. reflexivity. Qed.

(** The outcome of the checker step as arithmetic on its exit status. *)
Ltac fsck_range :=
  repeat match goal with
  | H : (_ <? 0) || (_ >? 1) = true |- _ =>
      apply orb_true_iff in H; rewrite Z.ltb_lt, Z.gtb_ltb, Z.ltb_lt in H
  | H : (_ <? 0) || (_ >? 1) = false |- _ =>
      apply orb_false_iff in H; rewrite Z.ltb_ge, Z.gtb_ltb, Z.ltb_ge in H
  end.

(** C5: once the image is written (the destination resolves to [dev] and
    partition record [ptn], steps 2 to 6 succeed) and the command lines of
    the repair steps can be allocated, the repair sequence is run if and
    only if the destination is a named partition whose declared type is
    the Linux type and the superblock read at offset 1024 carries the ext
    magic.  The sequence being run means that the external commands of the
    run are, in this order and with nothing else among them, the resize,
    then the check when the resize exited with 0, then the tune when the
    check exited with 0 or 1.  A partition declared of that type whose
    superblock carries another magic gets no repair command at all, and
    the one reply is success. *)
Theorem repair_iff_linux_type_and_magic (w : env) (part_name : string)
  (data : list byte) (g : globals) (dev : string) (ptn : option part_info) :
  destination w part_name = Some (dev, ptn) ->
  image_written w data g dev ->
  repair_allocates w dev ->
  let t := trace_of (cmd_flash w part_name data g) in
  (runs_repair dev t <->
   exists p, ptn = Some p /\ ptn_type p = PC_PART_TYPE_LINUX
             /\ superblock_reads w dev EXT3_SUPER_MAGIC)
  /\ (forall p magic,
        ptn = Some p -> ptn_type p = PC_PART_TYPE_LINUX ->
        superblock_reads w dev magic -> magic <> EXT3_SUPER_MAGIC ->
        (forall cmd status, ~ In (Exec cmd status) t)
        /\ replies t = [OKAY ""]
        /\ result_of (cmd_flash w part_name data g) = Val tt).
Proof.
  intros Hdest (Hblk & (gz & Hgz & Hfmt & Hpipe & Hall) & Hre)
         (Hres & Hchk & Htun).
  cbn zeta in Hfmt, Hpipe, Hall.
  unfold destination in Hdest.
  unfold superblock_reads, runs_repair, repair_sequence.
  name_run.
  unfold cmd_flash. mstep.
  destruct (part_name =? "disk")%string eqn:Hdisk;
    [| destruct (prefix "osip" part_name) eqn:Hosip; [discriminate |];
       destruct (find_part_device w part_name) eqn:Hdev; [| discriminate] ];
    injection Hdest as <- <-; mstep; rewrite Hblk; mstep; rewrite Hgz; mstep;
    rewrite Hfmt; mstep; rewrite Hpipe; mstep; rewrite Hall, Nat.eqb_refl; mstep.
  all: match goal with
       | |- context [String.eqb ?d (disk_device ?e)] =>
           destruct (String.eqb d (disk_device e));
           [specialize (Hre eq_refl); rewrite Hre |]
       end; mstep.
  all: unfold probe_ext, ext_checks; mstep.
  all: rewrite ?Hres, ?Hchk, ?Htun; mstep; forks.
  all: intros [= <- <- <-]; props; fsck_range.
  all: cbn [filter is_exec].
  all: split; [split |].
  all: try (lazymatch goal with
       | |- False -> _ => intros []
       | |- (exists p, _ = Some p /\ _) -> _ =>
           intros (p' & Hp & Hty & Ho & Hl & Hr)
       | |- forall p magic, _ =>
           intros p' magic Hp Hty (Ho & Hl & Hr) Hne
       | |- _ -> exists p, _ => intros _
       end).
  (* paths on which the hypothesis contradicts the tests taken *)
  all: try (exfalso; congruence).
  (* the commands run are the sequence, step by step *)
  all: try (repeat split; first [reflexivity | assumption | lia]; fail).
  (* the partition record, its type and the magic are those tested *)
  all: try (eexists; repeat split; congruence).
  (* no repair command, one success reply *)
  all: repeat split; try reflexivity; intros c st Hin; in_inv Hin.
Qed.

Lemma bench_image_written (ptype magic fsck : Z) :
  image_written (bench board ptype magic fsck 0) plain10 g0 "/dev/mmcblk0p1".
Proof.
  split; [reflexivity |]. split.
  - exists false. repeat split.
  - intros H. reflexivity.
Defined.

Lemma bench_repair_allocates (ptype magic fsck : Z) (dev : string) :
  repair_allocates (bench board ptype magic fsck 0) dev.
Proof. repeat split. Defined.

Lemma repair_iff_linux_type_and_magic_witness :
  (destination (bench board 0x83 0xEF53 1 0) "boot"
   = Some ("/dev/mmcblk0p1", Some {| ptn_name := "boot"; ptn_type := 0x83 |})
   /\ image_written (bench board 0x83 0xEF53 1 0) plain10 g0 "/dev/mmcblk0p1"
   /\ repair_allocates (bench board 0x83 0xEF53 1 0) "/dev/mmcblk0p1"
   /\ superblock_reads (bench board 0x83 0xEF53 1 0) "/dev/mmcblk0p1"
        EXT3_SUPER_MAGIC
   /\ runs_repair "/dev/mmcblk0p1"
        (trace_of (cmd_flash (bench board 0x83 0xEF53 1 0) "boot" plain10 g0))
   /\ filter is_exec
        (trace_of (cmd_flash (bench board 0x83 0xEF53 1 0) "boot" plain10 g0))
      = [Exec (resize2fs "/dev/mmcblk0p1") 0;
         Exec (e2fsck "/dev/mmcblk0p1") 1;
         Exec (tune2fs "/dev/mmcblk0p1") 0])
  /\
  (destination (bench board 0x83 0x4d44 0 0) "boot"
   = Some ("/dev/mmcblk0p1", Some {| ptn_name := "boot"; ptn_type := 0x83 |})
   /\ image_written (bench board 0x83 0x4d44 0 0) plain10 g0 "/dev/mmcblk0p1"
   /\ repair_allocates (bench board 0x83 0x4d44 0 0) "/dev/mmcblk0p1"
   /\ superblock_reads (bench board 0x83 0x4d44 0 0) "/dev/mmcblk0p1" 0x4d44
   /\ ~ runs_repair "/dev/mmcblk0p1"
          (trace_of (cmd_flash (bench board 0x83 0x4d44 0 0) "boot" plain10 g0))
   /\ replies (trace_of (cmd_flash (bench board 0x83 0x4d44 0 0) "boot" plain10 g0))
      = [OKAY ""]).
Proof.
  split.
  - assert (Hreads : superblock_reads (bench board 0x83 0xEF53 1 0)
                       "/dev/mmcblk0p1" EXT3_SUPER_MAGIC) by (repeat split).
    destruct (repair_iff_linux_type_and_magic
                (bench board 0x83 0xEF53 1 0) "boot" plain10 g0 "/dev/mmcblk0p1"
                (Some {| ptn_name := "boot"; ptn_type := 0x83 |})
                eq_refl (bench_image_written 0x83 0xEF53 1)
                (bench_repair_allocates 0x83 0xEF53 1 "/dev/mmcblk0p1"))
      as [Hiff _].
    split; [reflexivity |]. split; [apply bench_image_written |].
    split; [apply bench_repair_allocates |]. split; [exact Hreads |].
    split; [| reflexivity].
    apply Hiff. eexists. split; [reflexivity |]. split; [reflexivity |].
    exact Hreads.
  - assert (Hreads : superblock_reads (bench board 0x83 0x4d44 0 0)
                       "/dev/mmcblk0p1" 0x4d44) by (repeat split).
    destruct (repair_iff_linux_type_and_magic
                (bench board 0x83 0x4d44 0 0) "boot" plain10 g0 "/dev/mmcblk0p1"
                (Some {| ptn_name := "boot"; ptn_type := 0x83 |})
                eq_refl (bench_image_written 0x83 0x4d44 0)
                (bench_repair_allocates 0x83 0x4d44 0 "/dev/mmcblk0p1"))
      as [Hiff Hskip].
    split; [reflexivity |]. split; [apply bench_image_written |].
    split; [apply bench_repair_allocates |]. split; [exact Hreads |]. split.
    + intros Hrun. apply Hiff in Hrun.
      destruct Hrun as (p & _ & _ & _ & _ & Hmagic).
      cbv in Hmagic. discriminate Hmagic.
    + destruct (Hskip {| ptn_name := "boot"; ptn_type := 0x83 |} 0x4d44
                  eq_refl eq_refl Hreads)
        as (_ & Hok & _); [cbv; discriminate | exact Hok].
Defined.

(* ------------------------------------------------------------------ *)
(** ** Which handler ends the process *)






(* ------------------------------------------------------------------ *)
(** ** The countdown *)

(** Once the flag is clear the loop is over, whatever is left of the
    count. *)
Lemma countdown_loop_disarmed (w : env) (fuel : nat) (seconds : Z) (g : globals) :
  autoboot_enabled g = 0 ->
  countdown_loop w fuel seconds g = ([], g, Val tt).
Proof.
  intros H. destruct fuel; cbn [countdown_loop]; mstep; rewrite H;
    cbn [Z.eqb negb]; rewrite andb_false_r; reflexivity.
Qed.

Lemma iterations_sleeps (m : nat) (tl : list event) :
  iterations (repeat (Sleep 1) m ++ tl) = (m + iterations tl)%nat.
Proof.
  unfold iterations. induction m as [| m IH]; cbn [repeat app filter is_sleep].
  - reflexivity.
  - cbn [List.length]. rewrite IH. reflexivity.
Qed.

Lemma iterations_countdown (D : Z) (m : nat) :
  iterations (UiShowProgress D :: repeat (Sleep 1) m ++ [UiResetProgress]) = m.
Proof.
  change (UiShowProgress D :: repeat (Sleep 1) m ++ [UiResetProgress])
    with ([UiShowProgress D] ++ (repeat (Sleep 1) m ++ [UiResetProgress]))%list.
  unfold iterations at 1. rewrite filter_app. cbn [filter is_sleep app].
  fold (iterations (repeat (Sleep 1) m ++ [UiResetProgress])).
  rewrite iterations_sleeps. cbn. lia.
Qed.

(** The loop started armed with [n] seconds left and at least [n] fuel:
    it sleeps [m <= n] times; all [n] times when no key arrives while it
    sleeps; and when a key arrives during iteration [j], counted from 0,
    no more than [j + 1] times, leaving the flag clear. *)
Lemma countdown_loop_run (w : env) (n : nat) :
  forall (fuel : nat) (g : globals),
    (n <= fuel)%nat -> autoboot_enabled g <> 0 ->
    exists m g',
      countdown_loop w fuel (Z.of_nat n) g = (repeat (Sleep 1) m, g', Val tt)
      /\ (m <= n)%nat
      /\ clock g' = (clock g + m)%nat
      /\ g_update_location g' = g_update_location g
      /\ ((forall j, (j < n)%nat -> key_event w (clock g + j) = false) ->
          m = n /\ autoboot_enabled g' = autoboot_enabled g)
      /\ (forall j, (j < n)%nat -> key_event w (clock g + j) = true ->
          (m <= j + 1)%nat /\ autoboot_enabled g' = 0).
Proof.
  induction n as [| n IH]; intros fuel g Hfuel Harmed.
  - exists 0%nat, g. repeat split; try lia.
    destruct fuel; cbn [countdown_loop]; mstep; reflexivity.
  - destruct fuel as [| fuel]; [lia |].
    cbn [countdown_loop]. dstep.
    destruct (Z.eqb_spec (Z.of_nat (S n)) 0) as [Hz | _]; [lia |].
    assert (Hb : (autoboot_enabled g =? 0) = false)
      by (apply Z.eqb_neq; assumption).
    rewrite Hb.
    destruct (Z.eqb_spec (Z.of_nat (S n)) INT_MIN) as [Hz | _];
      [unfold INT_MIN in Hz; lia |].
    replace (Z.of_nat (S n) - 1) with (Z.of_nat n) by lia.
    mstep.
    destruct (key_event w (clock g)) eqn:Hkey; mstep; rewrite ?Hb; mstep.
    + rewrite countdown_loop_disarmed by reflexivity.
      exists 1%nat. eexists. split; [reflexivity |].
      cbn [clock autoboot_enabled g_update_location].
      split; [lia |]. split; [lia |]. split; [reflexivity |]. split.
      * intros Hno. specialize (Hno 0%nat ltac:(lia)).
        rewrite Nat.add_0_r in Hno. congruence.
      * intros j Hj Hk. split; [lia | reflexivity].
    + match goal with
      | |- context [countdown_loop w fuel (Z.of_nat n) ?g1] =>
          destruct (IH fuel g1 ltac:(lia) Harmed)
            as (m & g' & Hrun & Hle & Hclock & Hloc & Hnone & Hsome)
      end.
      rewrite Hrun. cbn [clock autoboot_enabled g_update_location] in *.
      exists (S m), g'. split; [reflexivity |].
      split; [lia |]. split; [lia |]. split; [assumption |]. split.
      * intros Hno.
        destruct Hnone as [-> ->]; [| split; reflexivity].
        intros j Hj.
        replace (S (clock g) + j)%nat with (clock g + S j)%nat by lia.
        apply Hno. lia.
      * intros j Hj Hk.
        destruct j as [| j]; [rewrite Nat.add_0_r in Hk; congruence |].
        destruct (Hsome j) as [Hm Hoff]; [lia | | split; [lia | exact Hoff]].
        replace (S (clock g) + j)%nat with (clock g + S j)%nat by lia.
        exact Hk.
Qed.

(** C8: the countdown started with [D >= 0] seconds, given fuel for [D]
    iterations, returns; its trace is the progress display, [m] sleeps
    (one per iteration) and then the reset of the progress indicator; the
    armed flag is clear when it returns.  When no key event arrives,
    [m = D] and the result is 1 (completed).  When a key event arrives
    during iteration [k < D], counted from 0 (window [k + 1] after the
    start, window 0 lying before the first test), [m <= k + 1] and the
    result is 0 (cancelled). *)
Theorem countdown_completes_or_cancels (w : env) (fuel : nat)
  (action : string) (D : Z) (g : globals) :
  0 <= D -> (Z.to_nat D <= fuel)%nat ->
  exists (m : nat) (g' : globals) (r : Z),
    countdown w fuel action D g
    = (UiShowProgress D :: repeat (Sleep 1) m ++ [UiResetProgress], g', Val r)
    /\ iterations (trace_of (countdown w fuel action D g)) = m
    /\ autoboot_enabled g' = 0
    /\ ((forall n, key_event w n = false) -> m = Z.to_nat D /\ r = 1)
    /\ (forall k, (k < Z.to_nat D)%nat ->
                  key_event w (clock g + 1 + k) = true ->
                  (m <= k + 1)%nat /\ r = 0).
Proof.
  intros HD Hfuel.
  unfold countdown. dstep.
  destruct (key_event w (clock g)) eqn:Hkey0; mstep.
  - cbn [Z.eqb negb]. mstep.
    rewrite countdown_loop_disarmed by reflexivity. mstep.
    exists 0%nat. eexists. exists 0.
    cbn [repeat app]. split.
    + destruct (key_event w (S (clock g))); mstep; reflexivity.
    + split.
      { destruct (key_event w (S (clock g))); mstep; reflexivity. }
      split.
      { destruct (key_event w (S (clock g))); mstep; reflexivity. }
      split.
      { intros Hno. rewrite Hno in Hkey0. discriminate. }
      intros k Hk Hpress. split; [lia | reflexivity].
  - cbn [Z.eqb negb]. mstep.
    match goal with
    | |- context [countdown_loop w fuel D ?g1] =>
        destruct (countdown_loop_run w (Z.to_nat D) fuel g1 Hfuel)
          as (m & g2 & Hrun & Hle & Hclock & Hloc & Hnone & Hsome);
        [cbn [autoboot_enabled]; lia |]
    end.
    rewrite Z2Nat.id in Hrun by exact HD. rewrite Hrun. mstep.
    cbn [clock autoboot_enabled g_update_location] in *.
    exists m.
    destruct (key_event w (clock g2)) eqn:Hlast; mstep.
    + destruct (Z.eqb_spec (autoboot_enabled g2) 0) as [Hoff | Hon]; mstep.
      * eexists. exists (autoboot_enabled g2).
        split; [reflexivity |]. split; [apply iterations_countdown |].
        split; [reflexivity |]. split.
        { intros Hno. rewrite Hno in Hlast. discriminate. }
        intros k Hk Hpress. destruct (Hsome k Hk) as [Hm Hz].
        { replace (S (clock g) + k)%nat with (clock g + 1 + k)%nat by lia.
          exact Hpress. }
        split; [exact Hm | exact Hz].
      * eexists. exists 0.
        split; [reflexivity |]. split; [apply iterations_countdown |].
        split; [reflexivity |]. split.
        { intros Hno. rewrite Hno in Hlast. discriminate. }
        intros k Hk Hpress. destruct (Hsome k Hk) as [Hm Hz].
        { replace (S (clock g) + k)%nat with (clock g + 1 + k)%nat by lia.
          exact Hpress. }
        split; [exact Hm | reflexivity].
    + eexists. exists (autoboot_enabled g2).
      split; [reflexivity |]. split; [apply iterations_countdown |].
      split; [reflexivity |]. split.
      { intros Hno. destruct Hnone as [Hm Hflag].
        - intros j _. apply Hno.
        - split; [exact Hm | exact Hflag]. }
      intros k Hk Hpress. destruct (Hsome k Hk) as [Hm Hz].
      { replace (S (clock g) + k)%nat with (clock g + 1 + k)%nat by lia.
        exact Hpress. }
      split; [exact Hm | exact Hz].
Qed.

Lemma countdown_completes_or_cancels_witness :
  0 <= 5
  /\ (Z.to_nat 5 <= 5)%nat
  /\ exists (m : nat) (g' : globals) (r : Z),
       countdown (bench board 0x83 0xEF53 0 0) 5 "boot" 5 g0
       = (UiShowProgress 5 :: repeat (Sleep 1) m ++ [UiResetProgress],
          g', Val r)
       /\ iterations
            (trace_of (countdown (bench board 0x83 0xEF53 0 0) 5 "boot" 5 g0))
          = m
       /\ autoboot_enabled g' = 0
       /\ ((forall n, key_event (bench board 0x83 0xEF53 0 0) n = false) ->
           m = Z.to_nat 5 /\ r = 1)
       /\ (forall k, (k < Z.to_nat 5)%nat ->
             key_event (bench board 0x83 0xEF53 0 0) (clock g0 + 1 + k) = true ->
             (m <= k + 1)%nat /\ r = 0).
Proof.
  assert (H0 : 0 <= 5) by lia.
  assert (H1 : (Z.to_nat 5 <= 5)%nat) by (cbn; lia).
  split; [exact H0 |]. split; [exact H1 |].
  exact (countdown_completes_or_cancels
           (bench board 0x83 0xEF53 0 0) 5 "boot" 5 g0 H0 H1).
Defined.

(** The two runs of the claim on the bench: five seconds and no key; five
    seconds and a key during iteration 2, counted from 0. *)
Example countdown_five_seconds :
  countdown (bench board 0x83 0xEF53 0 0) 5 "boot" 5 g0
  = ([UiShowProgress 5; Sleep 1; Sleep 1; Sleep 1; Sleep 1; Sleep 1;
      UiResetProgress],
     {| autoboot_enabled := 0; g_update_location := None; clock := 7 |},
     Val 1).
Proof. reflexivity. Qed.

Example countdown_key_in_iteration_two :
  countdown (with_keys (bench board 0x83 0xEF53 0 0) (Nat.eqb 3)) 5 "boot" 5 g0
  = ([UiShowProgress 5; Sleep 1; Sleep 1; Sleep 1; UiResetProgress],
     {| autoboot_enabled := 0; g_update_location := None; clock := 5 |},
     Val 0).
Proof. reflexivity. Qed.

(** A negative delay, which [atoi] can deliver from the boot parameters,
    never counts down to zero: the loop is still running when the fuel of
    the model is spent. *)
Example countdown_negative_delay :
  result_of (countdown (bench board 0x83 0xEF53 0 0) 100 "boot" (-1) g0)
  = Halt OutOfFuel
  /\ iterations
       (trace_of (countdown (bench board 0x83 0xEF53 0 0) 100 "boot" (-1) g0))
     = 100%nat.
Proof. split; reflexivity. Qed.

(* ------------------------------------------------------------------ *)
(** ** The deferred update *)

(** C9: in every state in which an update path is stashed, a call of
    [try_update_sw] returns 0 at once: it emits no event (no mount, no
    stat, no countdown, no provisioning, no write) and leaves the globals
    as they are. *)
Theorem try_update_sw_after_deferral_is_noop (w : env) (fuel : nat)
  (vol : Volume) (use_countdown : Z) (g : globals) (path : string) :
  g_update_location g = Some path ->
  try_update_sw w fuel vol use_countdown g = ([], g, Val 0).
Proof.
  intros H. unfold try_update_sw. mstep. rewrite H. reflexivity.
Qed.

Lemma try_update_sw_after_deferral_is_noop_witness :
  g_update_location g_deferred = Some "/sdcard/mfld.auto-ota.zip"
  /\ try_update_sw (bench board_full 0x83 0xEF53 0 0) 8 sdcard 1 g_deferred
     = ([], g_deferred, Val 0).
Proof.
  split; [reflexivity |].
  apply (try_update_sw_after_deferral_is_noop
           (bench board_full 0x83 0xEF53 0 0) 8 sdcard 1 g_deferred
           "/sdcard/mfld.auto-ota.zip").
  reflexivity.
Defined.

(** A boot cycle on the bench: the first call detects the package, counts
    down, provisions and stashes the path; the second call does nothing. *)
Example try_update_sw_twice :
  let w := bench board_full 0x83 0xEF53 0 0 in
  let first := try_update_sw w 8 sdcard 1 g0 in
  trace_of first
  = [MountDevice "/dev/mmcblk1p1" "/mnt/sdcard";
     Stat "/mnt/sdcard/mfld.auto-ota.zip"; Umount "/mnt/sdcard";
     UiShowText 1; UiShowProgress 8;
     Sleep 1; Sleep 1; Sleep 1; Sleep 1; Sleep 1; Sleep 1; Sleep 1; Sleep 1;
     UiResetProgress; UiShowText 0; Lock; UiShowIndeterminate;
     ErasePartition {| ptn_name := "cache"; ptn_type := 0x83 |};
     ErasePartition {| ptn_name := "data"; ptn_type := 0x83 |};
     UiResetProgress; Unlock]
  /\ result_of first = Val 0
  /\ g_update_location (globals_of first) = Some "/sdcard/mfld.auto-ota.zip"
  /\ try_update_sw w 8 sdcard 1 (globals_of first)
     = ([], globals_of first, Val 0).
Proof. repeat split. Qed.

(* ------------------------------------------------------------------ *)
(** ** More on the erase handler *)

(** X1: the erase handler replies success exactly when the partition is in
    the layout, its device node resolves and is a block device, its type
    is the Linux type, the command line is allocated and make_ext4fs exits
    with 0. *)
Theorem erase_succeeds_iff (w : env) (part_name : string) (data : list byte)
  (g : globals) :
  replies (trace_of (cmd_erase w part_name data g)) = [OKAY ""]
  <->
  exists p dev,
    find_part w part_name = Some p
    /\ find_part_device w (ptn_name p) = Some dev
    /\ is_valid_blkdev w dev = true
    /\ ptn_type p = PC_PART_TYPE_LINUX
    /\ asprintf_ok w (make_ext4fs (ptn_name p) dev) = true
    /\ execute_command w (make_ext4fs (ptn_name p) dev) = 0.
Proof.
  name_run. unfold make_ext4fs, cmd_erase. mstep. forks.
  all: intros [= <- <- <-]; props; cbn [replies].
  all: split; [intros Hr; try discriminate Hr
              | intros (p' & d' & Hp & Hd & Hv & Hty & Ha & Hx)].
  all: try congruence.
  all: try (do 2 eexists; repeat split; (eassumption || congruence)).
  all: try (exfalso; congruence).
Qed.

(** X2: the only thing the erase handler does besides replying is to run
    make_ext4fs, labelled with the partition's name, on the partition's
    own device node, and only when that node is a block device and the
    partition is of the Linux type. *)
Theorem erase_formats_only_valid_linux_partition (w : env)
  (part_name : string) (data : list byte) (g : globals) (e : event) :
  In e (trace_of (cmd_erase w part_name data g)) ->
  is_reply e = false ->
  exists p dev,
    find_part w part_name = Some p
    /\ find_part_device w (ptn_name p) = Some dev
    /\ is_valid_blkdev w dev = true
    /\ ptn_type p = PC_PART_TYPE_LINUX
    /\ e = Exec (make_ext4fs (ptn_name p) dev)
              (execute_command w (make_ext4fs (ptn_name p) dev)).
Proof.
  name_run. unfold make_ext4fs, cmd_erase. mstep. forks.
  all: intros [= <- <- <-] Hin Hnot; props.
  all: in_inv Hin; subst e; try discriminate Hnot.
  all: do 2 eexists; repeat split; (eassumption || reflexivity).
Qed.

Lemma erase_formats_only_valid_linux_partition_witness :
  In (Exec (make_ext4fs "boot" "/dev/mmcblk0p1") 0)
     (trace_of (cmd_erase (bench board 0x83 0xEF53 0 0) "boot" [] g0))
  /\ is_reply (Exec (make_ext4fs "boot" "/dev/mmcblk0p1") 0) = false
  /\ exists p dev,
       find_part (bench board 0x83 0xEF53 0 0) "boot" = Some p
       /\ find_part_device (bench board 0x83 0xEF53 0 0) (ptn_name p) = Some dev
       /\ is_valid_blkdev (bench board 0x83 0xEF53 0 0) dev = true
       /\ ptn_type p = PC_PART_TYPE_LINUX
       /\ Exec (make_ext4fs "boot" "/dev/mmcblk0p1") 0
          = Exec (make_ext4fs (ptn_name p) dev)
              (execute_command (bench board 0x83 0xEF53 0 0)
                 (make_ext4fs (ptn_name p) dev)).
Proof.
  assert (Hin : In (Exec (make_ext4fs "boot" "/dev/mmcblk0p1") 0)
     (trace_of (cmd_erase (bench board 0x83 0xEF53 0 0) "boot" [] g0)))
    by (vm_compute; tauto).
  split; [exact Hin |]. split; [reflexivity |].
  exact (erase_formats_only_valid_linux_partition
           (bench board 0x83 0xEF53 0 0) "boot" [] g0 _ Hin eq_refl).
Defined.

(* ------------------------------------------------------------------ *)
(** ** More on the flash handler *)

Ltac split_pure_ifs :=
  repeat match goal with
  | |- context [if ?c then gzip_dd _ else raw_dd _] => destruct c
  | H : context [if ?c then gzip_dd _ else raw_dd _] |- _ => destruct c
  end.

(** X3: when the destination resolves to a node that is not a block
    device, for the disk as for a partition, the flash handler replies
    "invalid destination node. partition disks?" and does nothing else: it
    does not even look at the payload. *)
Theorem flash_invalid_node_writes_nothing (w : env) (part_name : string)
  (data : list byte) (g : globals) (dev : string) (ptn : option part_info) :
  destination w part_name = Some (dev, ptn) ->
  is_valid_blkdev w dev = false ->
  cmd_flash w part_name data g
  = ([Reply (FAIL "invalid destination node. partition disks?")], g, Val tt).
Proof.
  intros Hdest Hblk. unfold destination in Hdest. unfold cmd_flash. mstep.
  destruct (part_name =? "disk")%string;
    [| destruct (prefix "osip" part_name); [discriminate |];
       destruct (find_part_device w part_name); [| discriminate] ];
    injection Hdest as <- <-; mstep; rewrite Hblk; reflexivity.
Qed.

Lemma flash_invalid_node_writes_nothing_witness :
  destination (with_blkdev (bench board 0x83 0xEF53 0 0) (fun _ => false)) "disk"
  = Some ("/dev/mmcblk0", None)
  /\ is_valid_blkdev (with_blkdev (bench board 0x83 0xEF53 0 0) (fun _ => false))
       "/dev/mmcblk0" = false
  /\ cmd_flash (with_blkdev (bench board 0x83 0xEF53 0 0) (fun _ => false))
       "disk" [x1f; x8b; x08] g0
     = ([Reply (FAIL "invalid destination node. partition disks?")], g0, Val tt).
Proof.
  split; [reflexivity |]. split; [reflexivity |].
  apply (flash_invalid_node_writes_nothing
           (with_blkdev (bench board 0x83 0xEF53 0 0) (fun _ => false))
           "disk" [x1f; x8b; x08] g0 "/dev/mmcblk0" None);
    reflexivity.
Defined.

Lemma osip_is_not_disk (part_name : string) :
  prefix "osip" part_name = true -> (part_name =? "disk")%string = false.
Proof.
  intros H. destruct (String.eqb_spec part_name "disk") as [-> | _];
    [discriminate H | reflexivity].
Qed.

(** An index too large for [long]: [strtol] stops at [LONG_MAX], whose low
    32 bits are -1. *)
Example atoi_out_of_range :
  atoi "99999999999999999999" = -1
  /\ atoi "-99999999999999999999" = 0
  /\ atoi "4294967299" = 3
  /\ atoi " -12abc" = -12.
Proof. repeat split. Qed.

Example flash_osip_index_out_of_range :
  cmd_flash (bench board 0x83 0xEF53 0 0) "osip99999999999999999999" plain10 g0
  = ([StitchImage plain10 (-1); Reply (OKAY "")], g0, Val tt).
Proof. reflexivity. Qed.

(** X4: a name that begins with "osip" never reaches the disk layout, even
    when the layout has a partition of that name: the payload goes,
    whole, to the stitched-image writer with the index [atoi] reads after
    the four letters ([strtol] cut to an [int]), and the reply follows the
    writer's status. *)
Theorem flash_osip_bypasses_layout (w : env) (part_name : string)
  (data : list byte) (g : globals) :
  prefix "osip" part_name = true ->
  cmd_flash w part_name data g
  = ([StitchImage data (atoi (advance 4 part_name));
      Reply (if write_stitch_image w data (atoi (advance 4 part_name)) =? 0
             then OKAY "" else FAIL "write_stitch_image failure")],
     g, Val tt).
Proof.
  intros H. unfold cmd_flash. mstep.
  rewrite (osip_is_not_disk _ H), H. mstep.
  destruct (write_stitch_image w data (atoi (advance 4 part_name)) =? 0);
    reflexivity.
Qed.

Lemma flash_osip_bypasses_layout_witness :
  prefix "osip" "osip_backup" = true
  /\ find_part_device
       (bench [("osip_backup", Some "/dev/mmcblk0p9")] 0x83 0xEF53 0 0)
       "osip_backup" = Some "/dev/mmcblk0p9"
  /\ cmd_flash (bench [("osip_backup", Some "/dev/mmcblk0p9")] 0x83 0xEF53 0 0)
       "osip_backup" plain10 g0
     = ([StitchImage plain10 0; Reply (OKAY "")], g0, Val tt).
Proof.
  split; [reflexivity |]. split; [reflexivity |].
  exact (flash_osip_bypasses_layout
           (bench [("osip_backup", Some "/dev/mmcblk0p9")] 0x83 0xEF53 0 0)
           "osip_backup" plain10 g0 eq_refl).
Defined.

(** X5: what the flash handler hands to the write pipe is the payload,
    byte for byte; the pipe is the gzip or the plain dd pipeline onto the
    device node the name resolves to, and that node is a block device. *)
Theorem flash_pipes_payload_unchanged (w : env) (part_name : string)
  (data : list byte) (g : globals) (payload : list byte) (n : nat) :
  In (Fwrite payload n) (trace_of (cmd_flash w part_name data g)) ->
  payload = data
  /\ exists dev ptn,
       destination w part_name = Some (dev, ptn)
       /\ is_valid_blkdev w dev = true
       /\ ((In (Popen (gzip_dd dev)) (trace_of (cmd_flash w part_name data g))
            /\ n = fwrite w (gzip_dd dev) data)
           \/ (In (Popen (raw_dd dev)) (trace_of (cmd_flash w part_name data g))
               /\ n = fwrite w (raw_dd dev) data)).
Proof.
  name_run. unfold destination. flash_paths.
  all: intros [= <- <- <-] Hin; in_inv Hin.
  all: injection Hin as <- <-.
  all: split; [reflexivity |]; do 2 eexists.
  all: (split; [reflexivity |]); (split; [assumption |]).
  all: split_pure_ifs.
  all: first [left; split; [in_list | reflexivity]
             | right; split; [in_list | reflexivity]].
Qed.

Lemma flash_pipes_payload_unchanged_witness :
  In (Fwrite plain10 7)
     (trace_of (cmd_flash (bench board 0x83 0xEF53 0 3) "boot" plain10 g0))
  /\ plain10 = plain10
  /\ exists dev ptn,
       destination (bench board 0x83 0xEF53 0 3) "boot" = Some (dev, ptn)
       /\ is_valid_blkdev (bench board 0x83 0xEF53 0 3) dev = true
       /\ ((In (Popen (gzip_dd dev))
               (trace_of (cmd_flash (bench board 0x83 0xEF53 0 3) "boot" plain10 g0))
            /\ 7%nat = fwrite (bench board 0x83 0xEF53 0 3) (gzip_dd dev) plain10)
           \/ (In (Popen (raw_dd dev))
                  (trace_of (cmd_flash (bench board 0x83 0xEF53 0 3) "boot" plain10 g0))
               /\ 7%nat = fwrite (bench board 0x83 0xEF53 0 3) (raw_dd dev) plain10)).
Proof.
  assert (Hin : In (Fwrite plain10 7)
     (trace_of (cmd_flash (bench board 0x83 0xEF53 0 3) "boot" plain10 g0)))
    by (vm_compute; tauto).
  split; [exact Hin |].
  exact (flash_pipes_payload_unchanged
           (bench board 0x83 0xEF53 0 3) "boot" plain10 g0 plain10 7 Hin).
Defined.

(** X6: a success reply of the flash handler, for a name that is not an
    "osip" index, means that the pipe accepted the whole payload and that
    [sync] was called; the handler then returns to the dispatcher. *)
Theorem flash_success_means_complete_write (w : env) (part_name : string)
  (data : list byte) (g : globals) (msg : string) :
  In (Reply (OKAY msg)) (trace_of (cmd_flash w part_name data g)) ->
  prefix "osip" part_name = false ->
  bytes_written (trace_of (cmd_flash w part_name data g)) = List.length data
  /\ In Sync (trace_of (cmd_flash w part_name data g))
  /\ result_of (cmd_flash w part_name data g) = Val tt.
Proof.
  name_run. flash_paths.
  all: intros [= <- <- <-] Hin Hosip; in_inv Hin.
  all: try congruence.
  all: repeat match goal with
       | H : (_ =? _)%nat = true |- _ => apply Nat.eqb_eq in H; rewrite <- H
       end.
  all: cbn [bytes_written]; repeat split; try lia; in_list.
Qed.

Lemma flash_success_means_complete_write_witness :
  In (Reply (OKAY ""))
     (trace_of (cmd_flash (bench board 0x83 0xEF53 0 0) "boot" plain10 g0))
  /\ prefix "osip" "boot" = false
  /\ bytes_written
       (trace_of (cmd_flash (bench board 0x83 0xEF53 0 0) "boot" plain10 g0))
     = List.length plain10
  /\ In Sync (trace_of (cmd_flash (bench board 0x83 0xEF53 0 0) "boot" plain10 g0))
  /\ result_of (cmd_flash (bench board 0x83 0xEF53 0 0) "boot" plain10 g0)
     = Val tt.
Proof.
  assert (Hin : In (Reply (OKAY ""))
     (trace_of (cmd_flash (bench board 0x83 0xEF53 0 0) "boot" plain10 g0)))
    by (vm_compute; tauto).
  split; [exact Hin |]. split; [reflexivity |].
  exact (flash_success_means_complete_write
           (bench board 0x83 0xEF53 0 0) "boot" plain10 g0 "" Hin eq_refl).
Defined.

(** X7: the flash handler asks the kernel to re-read the partition table
    only of the disk device node, and only after the whole payload went
    down the pipe and the node was opened again. *)
Theorem flash_rereads_table_only_after_disk_write (w : env)
  (part_name : string) (data : list byte) (g : globals) (dev : string) :
  In (Reread dev) (trace_of (cmd_flash w part_name data g)) ->
  dev = disk_device w
  /\ In (Fwrite data (List.length data))
        (trace_of (cmd_flash w part_name data g))
  /\ open_ok w OpenForReread dev = true.
Proof.
  name_run. flash_paths.
  all: intros [= <- <- <-] Hin; in_inv Hin.
  all: injection Hin as <-.
  all: repeat match goal with
       | H : (_ =? _)%nat = true |- _ => apply Nat.eqb_eq in H; rewrite <- H
       | H : (_ =? _)%string = true |- _ => apply String.eqb_eq in H
       end.
  all: repeat split; try assumption; try in_list.
  all: try (symmetry; assumption).
Qed.

Lemma flash_rereads_table_only_after_disk_write_witness :
  In (Reread "/dev/mmcblk0")
     (trace_of (cmd_flash (bench board 0x83 0xEF53 0 0) "disk" plain10 g0))
  /\ "/dev/mmcblk0" = disk_device (bench board 0x83 0xEF53 0 0)
  /\ In (Fwrite plain10 (List.length plain10))
        (trace_of (cmd_flash (bench board 0x83 0xEF53 0 0) "disk" plain10 g0))
  /\ open_ok (bench board 0x83 0xEF53 0 0) OpenForReread "/dev/mmcblk0" = true.
Proof.
  assert (Hin : In (Reread "/dev/mmcblk0")
     (trace_of (cmd_flash (bench board 0x83 0xEF53 0 0) "disk" plain10 g0)))
    by (vm_compute; tauto).
  split; [exact Hin |].
  exact (flash_rereads_table_only_after_disk_write
           (bench board 0x83 0xEF53 0 0) "disk" plain10 g0 "/dev/mmcblk0" Hin).
Defined.

(** X8: a flash to "disk" never reads a superblock, never runs a repair
    command and never writes a stitched image; the only node it opens or
    re-reads is the disk device node. *)
Theorem flash_disk_never_probes_or_repairs (w : env) (data : list byte)
  (g : globals) (e : event) :
  In e (trace_of (cmd_flash w "disk" data g)) ->
  match e with
  | Exec _ _ | ReadSuperblock _ | Seek _ _ | StitchImage _ _ => False
  | Open dev | Reread dev => dev = disk_device w
  | _ => True
  end.
Proof.
  name_run. unfold cmd_flash, gzip_header. cbn [String.eqb Ascii.eqb Bool.eqb].
  mstep. unfold probe_ext. mstep. forks.
  all: intros [= <- <- <-] Hin; in_inv Hin; subst e; try exact I; reflexivity.
Qed.

Lemma flash_disk_never_probes_or_repairs_witness :
  In (Open "/dev/mmcblk0")
     (trace_of (cmd_flash (bench board 0x83 0xEF53 0 0) "disk" plain10 g0))
  /\ "/dev/mmcblk0" = disk_device (bench board 0x83 0xEF53 0 0).
Proof.
  assert (Hin : In (Open "/dev/mmcblk0")
     (trace_of (cmd_flash (bench board 0x83 0xEF53 0 0) "disk" plain10 g0)))
    by (vm_compute; tauto).
  split; [exact Hin |].
  exact (flash_disk_never_probes_or_repairs
           (bench board 0x83 0xEF53 0 0) plain10 g0 _ Hin).
Defined.

(** Cut a written-out trace before its last four events. *)
Ltac before_last_four :=
  match goal with
  | |- exists before fsck, ?l = _ /\ _ =>
      exists (firstn (List.length l - 4) l);
      cbn [List.length Nat.sub firstn]
  end.

(** X9: tune2fs is run only after resize2fs exited with 0 and e2fsck with
    0 or 1, on the same device, and it is the last step: the run ends with
    the resize, the check, the tune and the reply, in this order and next
    to each other, no command is run and no reply sent before them, and
    nothing follows the reply.  The reply is success exactly when tune2fs
    exits with 0, and "tune2fs failed" otherwise. *)
Theorem repair_steps_run_in_order (w : env) (part_name : string)
  (data : list byte) (g : globals) (dev : string) (status : Z) :
  In (Exec (tune2fs dev) status) (trace_of (cmd_flash w part_name data g)) ->
  In (Exec (resize2fs dev) 0) (trace_of (cmd_flash w part_name data g))
  /\ (In (Exec (e2fsck dev) 0) (trace_of (cmd_flash w part_name data g))
      \/ In (Exec (e2fsck dev) 1) (trace_of (cmd_flash w part_name data g)))
  /\ replies (trace_of (cmd_flash w part_name data g))
     = [if status =? 0 then OKAY "" else FAIL "tune2fs failed"]
  /\ exists before fsck,
       trace_of (cmd_flash w part_name data g)
       = (before
          ++ [Exec (resize2fs dev) 0; Exec (e2fsck dev) fsck;
              Exec (tune2fs dev) status;
              Reply (if status =? 0 then OKAY "" else FAIL "tune2fs failed")])%list
       /\ (fsck = 0 \/ fsck = 1)
       /\ forallb (fun e => negb (is_exec e) && negb (is_reply e)) before
          = true.
Proof.
  name_run. flash_paths.
  all: intros [= <- <- <-] Hin; in_inv Hin.
  all: injection Hin as Hc Hs; subst.
  all: repeat match goal with
       | H : (?x =? 0) = _ |- _ => rewrite H
       end.
  all: props.
  all: match goal with
       | H : (_ <? 0) || (_ >? 1) = false |- _ =>
           apply orb_false_iff in H;
           rewrite Z.ltb_ge, Z.gtb_ltb, Z.ltb_ge in H
       end.
  all: match goal with
       | H : 0 <= ?x /\ ?x <= 1 |- _ =>
           assert (x = 0 \/ x = 1) as [Hf | Hf] by lia; rewrite ?Hf
       end.
  all: repeat match goal with
       | H : execute_command _ (resize2fs _) = 0 |- _ => rewrite H; clear H
       end.
  all: split; [in_list |].
  all: split; [first [left; in_list; fail | right; in_list] |].
  all: split; [reflexivity |].
  all: before_last_four; eexists; split; [reflexivity |].
  all: split; [first [left; reflexivity | right; reflexivity] | reflexivity].
Qed.

Lemma repair_steps_run_in_order_witness :
  In (Exec (tune2fs "/dev/mmcblk0p1") 0)
     (trace_of (cmd_flash (bench board 0x83 0xEF53 1 0) "boot" plain10 g0))
  /\ In (Exec (resize2fs "/dev/mmcblk0p1") 0)
        (trace_of (cmd_flash (bench board 0x83 0xEF53 1 0) "boot" plain10 g0))
  /\ (In (Exec (e2fsck "/dev/mmcblk0p1") 0)
         (trace_of (cmd_flash (bench board 0x83 0xEF53 1 0) "boot" plain10 g0))
      \/ In (Exec (e2fsck "/dev/mmcblk0p1") 1)
            (trace_of (cmd_flash (bench board 0x83 0xEF53 1 0) "boot" plain10 g0)))
  /\ replies (trace_of (cmd_flash (bench board 0x83 0xEF53 1 0) "boot" plain10 g0))
     = [OKAY ""]
  /\ exists before fsck,
       trace_of (cmd_flash (bench board 0x83 0xEF53 1 0) "boot" plain10 g0)
       = (before
          ++ [Exec (resize2fs "/dev/mmcblk0p1") 0;
              Exec (e2fsck "/dev/mmcblk0p1") fsck;
              Exec (tune2fs "/dev/mmcblk0p1") 0;
              Reply (OKAY "")])%list
       /\ (fsck = 0 \/ fsck = 1)
       /\ forallb (fun e => negb (is_exec e) && negb (is_reply e)) before
          = true.
Proof.
  assert (Hin : In (Exec (tune2fs "/dev/mmcblk0p1") 0)
     (trace_of (cmd_flash (bench board 0x83 0xEF53 1 0) "boot" plain10 g0)))
    by (vm_compute; tauto).
  split; [exact Hin |].
  exact (repair_steps_run_in_order
           (bench board 0x83 0xEF53 1 0) "boot" plain10 g0
           "/dev/mmcblk0p1" 0 Hin).
Defined.

(** X10: for a payload of four bytes or more the pipeline is chosen by
    bytes 0, 1 and 3 alone: gzip when they are 0x1F, 0x8B and 8, plain dd
    otherwise, whatever byte 2 is. *)
Theorem flash_pipeline_ignores_method_byte (w : env) (part_name : string)
  (b0 b1 b2 b3 : byte) (rest : list byte) (g : globals) (cmd : string) :
  In (Popen cmd)
     (trace_of (cmd_flash w part_name (b0 :: b1 :: b2 :: b3 :: rest) g)) ->
  exists dev ptn,
    destination w part_name = Some (dev, ptn)
    /\ cmd = if Byte.eqb b0 x1f && Byte.eqb b1 x8b && Byte.eqb b3 x08
             then gzip_dd dev else raw_dd dev.
Proof.
  name_run. unfold destination, cmd_flash, probe_ext, ext_checks, gzip_header.
  change (2 <? List.length (b0 :: b1 :: b2 :: b3 :: rest))%nat with true.
  mstep. cbn [nth_error]. mstep. forks.
  all: intros [= <- <- <-] Hin; in_inv Hin.
  all: apply (f_equal (fun e => match e with Popen c => c | _ => cmd end))
         in Hin; cbv beta iota in Hin; subst cmd.
  all: do 2 eexists; (split; [reflexivity |]).
  all: cbn [andb]; reflexivity.
Qed.

Lemma flash_pipeline_ignores_method_byte_witness :
  In (Popen (gzip_dd "/dev/mmcblk0p1"))
     (trace_of (cmd_flash (bench board 0x83 0xEF53 0 0) "boot"
                  [x1f; x8b; xff; x08; x00] g0))
  /\ exists dev ptn,
       destination (bench board 0x83 0xEF53 0 0) "boot" = Some (dev, ptn)
       /\ gzip_dd "/dev/mmcblk0p1"
          = if Byte.eqb x1f x1f && Byte.eqb x8b x8b && Byte.eqb x08 x08
            then gzip_dd dev else raw_dd dev.
Proof.
  assert (Hin : In (Popen (gzip_dd "/dev/mmcblk0p1"))
     (trace_of (cmd_flash (bench board 0x83 0xEF53 0 0) "boot"
                  [x1f; x8b; xff; x08; x00] g0)))
    by (vm_compute; tauto).
  split; [exact Hin |].
  exact (flash_pipeline_ignores_method_byte
           (bench board 0x83 0xEF53 0 0) "boot" x1f x8b xff x08 [x00] g0
           (gzip_dd "/dev/mmcblk0p1") Hin).
Defined.

(* ------------------------------------------------------------------ *)
(** ** The oem and continue handlers *)

Lemma substring_all (s : string) : substring 0 (String.length s) s = s.
Proof. induction s as [| c s IH]; cbn; [reflexivity | now rewrite IH]. Qed.

Lemma skip_blanks_pad (n : nat) (s : string) :
  skip_blanks (pad n s) = skip_blanks s.
Proof. induction n as [| n IH]; [reflexivity | exact IH]. Qed.

(** X11: "oem", after any number of blanks, followed by the six letters
    "system", runs whatever follows those letters, blanks skipped, no
    separator being required, and replies success exactly when the command
    exits with 0. *)
Theorem oem_system_runs_rest_of_line (w : env) (n : nat) (rest : string)
  (data : list byte) (g : globals) :
  cmd_oem w (pad n ("system" ++ rest)) data g
  = ([Exec (skip_blanks rest) (execute_command w (skip_blanks rest));
      Reply (if execute_command w (skip_blanks rest) =? 0
             then OKAY "" else FAIL "OEM system command failed")],
     g, Val tt).
Proof.
  unfold cmd_oem. cbv zeta. rewrite skip_blanks_pad.
  change (skip_blanks ("system" ++ rest)) with ("system" ++ rest).
  assert (Hpre : prefix CMD_SYSTEM ("system" ++ rest) = true)
    by (destruct rest; reflexivity).
  rewrite Hpre.
  assert (Hadv : advance (String.length CMD_SYSTEM) ("system" ++ rest) = rest).
  { unfold advance. cbn. rewrite Nat.sub_0_r. apply substring_all. }
  rewrite Hadv. mstep.
  destruct (execute_command w (skip_blanks rest) =? 0); reflexivity.
Qed.

(** X12: "oem", after any number of blanks, followed by "partition" and
    anything else, applies the disk layout and replies by its status. *)
Theorem oem_partition_ignores_rest_of_line (w : env) (n : nat) (rest : string)
  (data : list byte) (g : globals) :
  cmd_oem w (pad n ("partition" ++ rest)) data g
  = ([ApplyDiskConfig;
      Reply (if apply_disk_config w =? 0
             then OKAY "" else FAIL "apply_disk_config error")],
     g, Val tt).
Proof.
  unfold cmd_oem. cbv zeta. rewrite skip_blanks_pad.
  change (skip_blanks ("partition" ++ rest)) with ("partition" ++ rest).
  change (prefix CMD_SYSTEM ("partition" ++ rest)) with false.
  assert (Hpre : prefix CMD_PARTITION ("partition" ++ rest) = true)
    by (destruct rest; reflexivity).
  rewrite Hpre.
  mstep. destruct (apply_disk_config w =? 0); reflexivity.
Qed.

(** X13: the oem handler runs a command only for a "system" subcommand and
    applies the layout only for a "partition" subcommand; on any other
    argument it does nothing but reply. *)
Theorem oem_acts_on_known_subcommands_only (w : env) (arg : string)
  (data : list byte) (g : globals) (e : event) :
  In e (trace_of (cmd_oem w arg data g)) ->
  is_reply e = false ->
  (prefix "system" (skip_blanks arg) = true
   /\ exists cmd status, e = Exec cmd status)
  \/ (prefix "system" (skip_blanks arg) = false
      /\ prefix "partition" (skip_blanks arg) = true
      /\ e = ApplyDiskConfig).
Proof.
  name_run. unfold cmd_oem, CMD_SYSTEM, CMD_PARTITION. mstep.
  destruct (prefix "system" (skip_blanks arg)) eqn:Hs; mstep;
    [| destruct (prefix "partition" (skip_blanks arg)) eqn:Hp; mstep ];
    forks.
  all: intros [= <- <- <-] Hin Hnot; in_inv Hin; subst e;
       try discriminate Hnot.
  all: first [left; split; [reflexivity | eauto]
             | right; repeat split; reflexivity].
Qed.

Lemma oem_acts_on_known_subcommands_only_witness :
  In ApplyDiskConfig
     (trace_of (cmd_oem (bench board 0x83 0xEF53 0 0) " partition" [] g0))
  /\ is_reply ApplyDiskConfig = false
  /\ ((prefix "system" (skip_blanks " partition") = true
       /\ exists cmd status, ApplyDiskConfig = Exec cmd status)
      \/ (prefix "system" (skip_blanks " partition") = false
          /\ prefix "partition" (skip_blanks " partition") = true
          /\ ApplyDiskConfig = ApplyDiskConfig)).
Proof.
  assert (Hin : In ApplyDiskConfig
     (trace_of (cmd_oem (bench board 0x83 0xEF53 0 0) " partition" [] g0)))
    by (vm_compute; tauto).
  split; [exact Hin |]. split; [reflexivity |].
  exact (oem_acts_on_known_subcommands_only
           (bench board 0x83 0xEF53 0 0) " partition" [] g0 _ Hin eq_refl).
Defined.

(** X14: the continue handler never replies success.  Either the
    second-stage partition mounts and kexec takes over, and no reply is
    sent at all, or the handler returns with the one reply "Unable to boot
    default kernel!". *)
Theorem continue_never_reports_success (w : env) (arg : string)
  (data : list byte) (g : globals) :
  let run := cmd_continue w arg data g in
  (forall msg, ~ In (Reply (OKAY msg)) (trace_of run))
  /\ (result_of run = Val tt ->
      replies (trace_of run) = [FAIL "Unable to boot default kernel!"])
  /\ (result_of run = Halt Kexeced <->
      mount_partition w (find_part w (g_2ndstageboot_part w)) = 0
      /\ kexec_ok w (second_stage_path w) = true)
  /\ (result_of run = Halt Kexeced -> replies (trace_of run) = [])
  /\ (result_of run = Val tt \/ result_of run = Halt Kexeced).
Proof.
  cbn zeta. name_run.
  unfold second_stage_path, cmd_continue, start_default_kernel. mstep. forks.
  all: intros [= <- <- <-]; props; cbn [replies].
  all: split; [intros msg Hin; in_inv Hin |].
  all: split; [intros H; first [reflexivity | discriminate H] |].
  all: split; [| split; [intros H; first [reflexivity | discriminate H]
                        | first [left; reflexivity | right; reflexivity]]].
  all: split; [intros H; first [discriminate H | split; congruence]
              | intros [H1 H2]; first [reflexivity | congruence]].
Qed.

(* ------------------------------------------------------------------ *)
(** ** Detection of an update package *)

Lemma advance_mnt (s : string) : advance 4 ("/mnt" ++ s) = s.
Proof. unfold advance. cbn. rewrite Nat.sub_0_r. apply substring_all. Qed.

Ltac detect_paths :=
  unfold detect_sw_update; mstep; forks.

(** X15: a path returned by the detection is the package's path relative
    to the volume's mount point in the running system (the leading "/mnt"
    of the scratch mount is cut off); the package was found by [stat]
    under the scratch mount, on the volume's first device or, failing
    that, on its second. *)
Theorem detect_returns_volume_relative_path (w : env) (vol : Volume)
  (g : globals) (path : string) :
  result_of (detect_sw_update w vol g) = Val (Some path) ->
  path = update_package w vol
  /\ stat w ("/mnt" ++ update_package w vol) = 0
  /\ (mount_partition_device w (device vol) (fs_type vol)
        ("/mnt" ++ mount_point vol) = 0
      \/ exists d2, device2 vol = Some d2
           /\ mount_partition_device w d2 (fs_type vol)
                ("/mnt" ++ mount_point vol) = 0).
Proof.
  name_run. unfold update_package. detect_paths.
  all: intros [= <- <- <-] Hr; try discriminate Hr; props.
  all: injection Hr as <-.
  all: split;
       [exact (advance_mnt (mount_point vol ++ "/" ++ AUTO_UPDATE_FNAME w)) |];
       split; [assumption |].
  all: first [left; assumption | right; eexists; split; [reflexivity | assumption]].
Qed.

Lemma detect_returns_volume_relative_path_witness :
  result_of (detect_sw_update (bench board_full 0x83 0xEF53 0 0) sdcard g0)
  = Val (Some "/sdcard/mfld.auto-ota.zip")
  /\ "/sdcard/mfld.auto-ota.zip"
     = update_package (bench board_full 0x83 0xEF53 0 0) sdcard
  /\ stat (bench board_full 0x83 0xEF53 0 0)
        ("/mnt" ++ update_package (bench board_full 0x83 0xEF53 0 0) sdcard) = 0.
Proof.
  split; [reflexivity |].
  destruct (detect_returns_volume_relative_path
              (bench board_full 0x83 0xEF53 0 0) sdcard g0
              "/sdcard/mfld.auto-ota.zip" eq_refl) as (Hp & Hs & _).
  split; [exact Hp | exact Hs].
Defined.

(** X16: the detection leaves the globals alone; whenever it returns, with
    or without a package, its last act is to unmount the scratch mount
    point, once; when it does not return it has called [die], and nothing
    was unmounted. *)
Theorem detect_unmounts_when_it_returns (w : env) (vol : Volume) (g : globals) :
  let run := detect_sw_update w vol g in
  globals_of run = g
  /\ (forall r, result_of run = Val r ->
        exists t0, trace_of run = t0 ++ [Umount ("/mnt" ++ mount_point vol)]
                   /\ forall mp, ~ In (Umount mp) t0)%list
  /\ ((forall r, result_of run <> Val r) ->
        result_of run = Halt Died
        /\ forall mp, ~ In (Umount mp) (trace_of run)).
Proof.
  cbn zeta. name_run. detect_paths.
  all: intros [= <- <- <-]; (split; [reflexivity |]); split.
  all: try (intros r Hr; discriminate Hr).
  all: try (intros Hr; exfalso; apply (Hr _ eq_refl)).
  all: try (intros Hr; split; [reflexivity | intros mp Hin; in_inv Hin]).
  all: intros r _.
  all: match goal with
       | |- context [@eq (list event) [?a; ?b] _] => exists [a]
       | |- context [@eq (list event) [?a; ?b; ?c] _] => exists [a; b]
       | |- context [@eq (list event) [?a; ?b; ?c; ?d] _] => exists [a; b; c]
       end.
  all: split; [reflexivity | intros mp Hin; in_inv Hin].
Qed.

(** X17: every mount the detection attempts is at the scratch mount point
    "/mnt" + mount point; the volume's second device is tried only when the
    mount of the first one failed. *)
Theorem detect_tries_second_device_only_after_first (w : env) (vol : Volume)
  (g : globals) (dev mp : string) :
  In (MountDevice dev mp) (trace_of (detect_sw_update w vol g)) ->
  mp = "/mnt" ++ mount_point vol
  /\ (dev = device vol
      \/ (device2 vol = Some dev
          /\ mount_partition_device w (device vol) (fs_type vol) mp <> 0)).
Proof.
  name_run. detect_paths.
  all: intros [= <- <- <-] Hin; in_inv Hin; props.
  all: injection Hin as <- <-.
  all: split; [reflexivity |].
  all: first [left; reflexivity | right; split; [reflexivity | assumption]].
Qed.

Lemma detect_tries_second_device_only_after_first_witness :
  In (MountDevice "/dev/mmcblk1p1" "/mnt/sdcard")
     (trace_of (detect_sw_update (bench board_full 0x83 0xEF53 0 0) sdcard g0))
  /\ "/mnt/sdcard" = "/mnt" ++ mount_point sdcard
  /\ ("/dev/mmcblk1p1" = device sdcard
      \/ (device2 sdcard = Some "/dev/mmcblk1p1"
          /\ mount_partition_device (bench board_full 0x83 0xEF53 0 0)
               (device sdcard) (fs_type sdcard) "/mnt/sdcard" <> 0)).
Proof.
  assert (Hin : In (MountDevice "/dev/mmcblk1p1" "/mnt/sdcard")
     (trace_of (detect_sw_update (bench board_full 0x83 0xEF53 0 0) sdcard g0)))
    by (vm_compute; tauto).
  split; [exact Hin |].
  exact (detect_tries_second_device_only_after_first
           (bench board_full 0x83 0xEF53 0 0) sdcard g0
           "/dev/mmcblk1p1" "/mnt/sdcard" Hin).
Defined.

(* ------------------------------------------------------------------ *)
(** ** Provisioning *)

(** A volume whose second device is the cache partition: the comparison
    of [provision_partition] does not look at it, and the cache partition
    is formatted. *)
Example provision_formats_second_device :
  provision_partition (bench board_full 0x83 0xEF53 0 0) "cache"
    {| mount_point := "/sdcard"; fs_type := "vfat";
       device := "/dev/mmcblk1p1"; device2 := Some "/dev/mmcblk0p2" |} g0
  = ([ErasePartition {| ptn_name := "cache"; ptn_type := 0x83 |}], g0, Val 0).
Proof. reflexivity. Qed.



(** X19: the provisioning checks run the platform hook, then the cache
    partition, then the data partition, and stop at the first failure: a
    failing hook leaves both partitions untouched, a failing cache step
    leaves the data partition untouched; the result is 0 only when all
    succeed, -1 otherwise, and the globals are left alone. *)
Theorem provisioning_checks_stops_at_first_failure (w : env) (vol : Volume)
  (g : globals) :
  let hook_ok := match platform_provision_function w with
                 | Some r => r =? 0 | None => true end in
  let hook := match platform_provision_function w with
              | Some _ => [PlatformProvision] | None => [] end in
  let cache := provision_partition w (CACHE_PTN w) vol g in
  let data := provision_partition w (DATA_PTN w) vol g in
  provisioning_checks w vol g
  = if negb hook_ok then (hook, g, Val (-1))
    else match result_of cache with
         | Val 0 =>
             ((hook ++ trace_of cache ++ trace_of data)%list, g,
              match result_of data with Val 0 => Val 0 | _ => Val (-1) end)
         | _ => ((hook ++ trace_of cache)%list, g, Val (-1))
         end.
Proof.
  cbn zeta. unfold provisioning_checks, provision_partition. mstep.
  destruct (platform_provision_function w) as [h |]; mstep;
    [destruct (h =? 0); mstep; [| reflexivity] |].
  all: cbn [Z.eqb]; mstep; repeat (fork; cbn [Z.eqb]; mstep); reflexivity.
Qed.

(* ------------------------------------------------------------------ *)
(** ** More on the countdown *)

Lemma quiet_spec (w : env) (n : nat) :
  forall from,
    quiet w from n = true <->
    forall j, (j < n)%nat -> key_event w (from + j) = false.
Proof.
  induction n as [| n IH]; intros from; cbn [quiet].
  - split; [intros _ j Hj; lia | reflexivity].
  - rewrite andb_true_iff, negb_true_iff, IH. split.
    + intros [H0 Hrest] j Hj. destruct j as [| j].
      * now rewrite Nat.add_0_r.
      * replace (from + S j)%nat with (S from + j)%nat by lia.
        apply Hrest. lia.
    + intros H. split.
      * specialize (H 0%nat ltac:(lia)). now rewrite Nat.add_0_r in H.
      * intros j Hj. replace (S from + j)%nat with (from + S j)%nat by lia.
        apply H. lia.
Qed.

Lemma quiet_false (w : env) (n : nat) :
  forall from,
    quiet w from n = false ->
    exists j, (j < n)%nat /\ key_event w (from + j) = true.
Proof.
  induction n as [| n IH]; intros from; cbn [quiet]; [discriminate |].
  destruct (key_event w from) eqn:Hk; cbn [negb andb].
  - intros _. exists 0%nat. rewrite Nat.add_0_r. split; [lia | exact Hk].
  - intros H. destruct (IH _ H) as (j & Hj & Hkey).
    exists (S j). split; [lia |].
    replace (from + S j)%nat with (S from + j)%nat by lia. exact Hkey.
Qed.

Lemma quiet_snoc (w : env) (n : nat) :
  forall from,
    quiet w from (S n) = quiet w from n && negb (key_event w (from + n)).
Proof.
  induction n as [| n IH]; intros from.
  - cbn [quiet]. rewrite Nat.add_0_r, andb_true_r. reflexivity.
  - change (quiet w from (S (S n)))
      with (negb (key_event w from) && quiet w (S from) (S n)).
    rewrite IH. cbn [quiet].
    replace (S from + n)%nat with (from + S n)%nat by lia.
    now rewrite andb_assoc.
Qed.

Lemma countdown_events_sleeps (m : nat) (tl : list event) :
  forallb is_countdown_event (repeat (Sleep 1) m ++ tl)
  = forallb is_countdown_event tl.
Proof. induction m as [| m IH]; [reflexivity | exact IH]. Qed.

(** The countdown with a non-negative delay and fuel for it returns 1 when
    no key event arrives in any of its windows, and 0 otherwise. *)
Lemma countdown_returns (w : env) (fuel : nat) (action : string) (D : Z)
  (g : globals) :
  0 <= D -> (Z.to_nat D <= fuel)%nat ->
  exists t g',
    countdown w fuel action D g
    = (t, g', Val (if quiet w (clock g) (Z.to_nat D + 2) then 1 else 0))
    /\ forallb is_countdown_event t = true
    /\ g_update_location g' = g_update_location g
    /\ autoboot_enabled g' = 0.
Proof.
  intros HD Hfuel.
  replace (Z.to_nat D + 2)%nat with (S (S (Z.to_nat D))) by lia.
  change (quiet w (clock g) (S (S (Z.to_nat D))))
    with (negb (key_event w (clock g))
          && quiet w (S (clock g)) (S (Z.to_nat D))).
  rewrite quiet_snoc.
  unfold countdown. dstep.
  destruct (key_event w (clock g)) eqn:Hkey0; mstep.
  - cbn [Z.eqb negb andb]. mstep.
    rewrite countdown_loop_disarmed by reflexivity. mstep.
    do 2 eexists. split.
    + destruct (key_event w (S (clock g))); mstep; reflexivity.
    + repeat split.
  - cbn [Z.eqb negb andb]. mstep.
    match goal with
    | |- context [countdown_loop w fuel D ?g1] =>
        destruct (countdown_loop_run w (Z.to_nat D) fuel g1 Hfuel)
          as (m & g2 & Hrun & Hle & Hclock & Hloc & Hnone & Hsome);
        [cbn [autoboot_enabled]; lia |]
    end.
    rewrite Z2Nat.id in Hrun by exact HD. rewrite Hrun. mstep.
    cbn [clock autoboot_enabled g_update_location] in *.
    destruct (quiet w (S (clock g)) (Z.to_nat D)) eqn:Hq; cbn [andb].
    + destruct (Hnone (proj1 (quiet_spec w _ _) Hq)) as [-> Hflag].
      rewrite Hclock.
      destruct (key_event w (S (clock g) + Z.to_nat D)); mstep;
        rewrite ?Hflag; cbn [Z.eqb negb]; mstep.
      * do 2 eexists. split; [reflexivity |].
        rewrite <- Hloc.
        split; [| split; reflexivity].
        cbn [forallb is_countdown_event andb].
        rewrite countdown_events_sleeps. reflexivity.
      * rewrite ?Hflag. do 2 eexists. split; [reflexivity |].
        rewrite <- Hloc.
        split; [| split; reflexivity].
        cbn [forallb is_countdown_event andb].
        rewrite countdown_events_sleeps. reflexivity.
    + apply quiet_false in Hq. destruct Hq as (j & Hj & Hkey).
      destruct (Hsome j Hj Hkey) as [_ Hoff].
      destruct (key_event w (clock g2)); mstep; rewrite ?Hoff;
        cbn [Z.eqb negb]; mstep.
      * rewrite ?Hoff. do 2 eexists. split; [reflexivity |].
        rewrite <- Hloc.
        split; [| split; reflexivity].
        cbn [forallb is_countdown_event andb].
        rewrite countdown_events_sleeps. reflexivity.
      * rewrite ?Hoff. do 2 eexists. split; [reflexivity |].
        rewrite <- Hloc.
        split; [| split; reflexivity].
        cbn [forallb is_countdown_event andb].
        rewrite countdown_events_sleeps. reflexivity.
Qed.

(** X20: the countdown with a non-negative delay D, given fuel for D
    iterations, returns 0 or 1; it returns 1 exactly when no key event
    arrives in any of its D + 2 windows: before the first test, during
    each of the D sleeps, and between the last test and the read of the
    flag.  A key pressed after the last second has gone by, but before the
    flag is read back, still cancels. *)
Theorem countdown_completes_iff_no_key (w : env) (fuel : nat)
  (action : string) (D : Z) (g : globals) :
  0 <= D -> (Z.to_nat D <= fuel)%nat ->
  exists r,
    result_of (countdown w fuel action D g) = Val r
    /\ (r = 0 \/ r = 1)
    /\ (r = 1 <->
        forall j, (j <= Z.to_nat D + 1)%nat ->
                  key_event w (clock g + j) = false).
Proof.
  intros HD Hfuel.
  destruct (countdown_returns w fuel action D g HD Hfuel)
    as (t & g' & Hrun & _).
  rewrite Hrun. cbn [result_of snd]. eexists. split; [reflexivity |].
  destruct (quiet w (clock g) (Z.to_nat D + 2)) eqn:Hq.
  - split; [right; reflexivity |]. split; [| reflexivity].
    intros _ j Hj. apply (proj1 (quiet_spec w _ _) Hq). lia.
  - split; [left; reflexivity |]. split; [discriminate |].
    intros Hno. apply quiet_false in Hq. destruct Hq as (j & Hj & Hkey).
    rewrite Hno in Hkey by lia. discriminate Hkey.
Qed.

Lemma countdown_completes_iff_no_key_witness :
  0 <= 5
  /\ (Z.to_nat 5 <= 5)%nat
  /\ exists r,
       result_of (countdown (with_keys (bench board 0x83 0xEF53 0 0) (Nat.eqb 6))
                    5 "boot" 5 g0) = Val r
       /\ (r = 0 \/ r = 1)
       /\ (r = 1 <->
           forall j, (j <= Z.to_nat 5 + 1)%nat ->
             key_event (with_keys (bench board 0x83 0xEF53 0 0) (Nat.eqb 6))
               (clock g0 + j) = false).
Proof.
  assert (H0 : 0 <= 5) by lia.
  assert (H1 : (Z.to_nat 5 <= 5)%nat) by (cbn; lia).
  split; [exact H0 |]. split; [exact H1 |].
  exact (countdown_completes_iff_no_key
           (with_keys (bench board 0x83 0xEF53 0 0) (Nat.eqb 6))
           5 "boot" 5 g0 H0 H1).
Defined.

(** A key in the last window, after the fifth sleep: five iterations, and
    the countdown is cancelled all the same. *)
Example countdown_key_after_last_second :
  countdown (with_keys (bench board 0x83 0xEF53 0 0) (Nat.eqb 6)) 5 "boot" 5 g0
  = ([UiShowProgress 5; Sleep 1; Sleep 1; Sleep 1; Sleep 1; Sleep 1;
      UiResetProgress],
     {| autoboot_enabled := 0; g_update_location := None; clock := 7 |},
     Val 0).
Proof. reflexivity. Qed.

(** Whatever the fuel and the delay, a countdown loop emits sleeps only,
    keeps the stashed update path, and does not end the caller. *)
Lemma countdown_loop_events (w : env) (fuel : nat) :
  forall (seconds : Z) (g : globals),
    forallb is_countdown_event (trace_of (countdown_loop w fuel seconds g))
    = true
    /\ g_update_location (globals_of (countdown_loop w fuel seconds g))
       = g_update_location g
    /\ result_of (countdown_loop w fuel seconds g) <> Stop.
Proof.
  induction fuel as [| fuel IH]; intros seconds g; cbn [countdown_loop]; dstep.
  - destruct (negb (seconds =? 0) && negb (autoboot_enabled g =? 0));
      mstep; repeat split; discriminate.
  - destruct (negb (seconds =? 0) && negb (autoboot_enabled g =? 0));
      mstep; [| repeat split; discriminate].
    destruct (key_event w (clock g)); mstep;
      [destruct (autoboot_enabled g =? 0); mstep |];
      (destruct (seconds =? INT_MIN); mstep; [repeat split; discriminate |]);
      match goal with
      | |- context [countdown_loop w fuel (seconds - 1) ?g1] =>
          specialize (IH (seconds - 1) g1);
          destruct (countdown_loop w fuel (seconds - 1) g1) as [[t1 g2] r1]
      end;
      cbn [trace_of globals_of result_of fst snd g_update_location] in IH;
      destruct IH as (Ht & Hg & Hr);
      destruct r1; mstep; cbn [forallb is_countdown_event andb];
      repeat split; try assumption; try discriminate; congruence.
Qed.

Lemma countdown_events (w : env) (fuel : nat) (action : string) (D : Z)
  (g : globals) :
  forallb is_countdown_event (trace_of (countdown w fuel action D g)) = true
  /\ g_update_location (globals_of (countdown w fuel action D g))
     = g_update_location g
  /\ result_of (countdown w fuel action D g) <> Stop.
Proof.
  unfold countdown. dstep.
  destruct (key_event w (clock g)); mstep;
    [cbn [Z.eqb negb]; mstep |];
    match goal with
    | |- context [countdown_loop w fuel D ?g1] =>
        pose proof (countdown_loop_events w fuel D g1) as IH;
        destruct (countdown_loop w fuel D g1) as [[t1 g2] r1]
    end;
    cbn [trace_of globals_of result_of fst snd g_update_location] in IH;
    destruct IH as (Ht & Hg & Hr);
    (destruct r1; mstep; [| contradiction | repeat split; (assumption || discriminate)]);
    (destruct (key_event w (clock g2)); mstep;
      [destruct (autoboot_enabled g2 =? 0); mstep |]);
    cbn [forallb is_countdown_event andb];
    rewrite forallb_app, Ht; repeat split; (assumption || discriminate).
Qed.

Lemma lock_scan_countdown (held : bool) (t rest : list event) :
  forallb is_countdown_event t = true ->
  lock_scan held (t ++ rest) = lock_scan held rest.
Proof.
  induction t as [| e t IH]; [reflexivity |].
  cbn [forallb]. intros H. apply andb_true_iff in H. destruct H as [He Ht].
  destruct e; try discriminate He; cbn [app lock_scan needs_lock andb];
    apply IH; exact Ht.
Qed.

Lemma countdown_event_in (t : list event) (e : event) :
  forallb is_countdown_event t = true -> In e t -> is_countdown_event e = true.
Proof.
  intros H Hin. rewrite forallb_forall in H. apply H. exact Hin.
Qed.

(* ------------------------------------------------------------------ *)
(** ** The update check *)

Lemma lock_scan_countdown_only (held : bool) (t : list event) :
  forallb is_countdown_event t = true -> lock_scan held t = Some held.
Proof.
  intros H. rewrite <- (app_nil_r t). rewrite lock_scan_countdown by exact H.
  reflexivity.
Qed.

Ltac through_countdown :=
  match goal with
  | |- context [countdown ?w ?f ?a ?d ?g] =>
      let H := fresh "Hcd" in
      let tc := fresh "tc" in
      let gc := fresh "gc" in
      let rc := fresh "rc" in
      pose proof (countdown_events w f a d g) as H;
      destruct (countdown w f a d g) as [[tc gc] rc];
      cbn [trace_of globals_of result_of fst snd] in H;
      destruct H as (Htc & Hgc & Hrc);
      destruct rc; [| contradiction |]; mstep
  end.

Ltac update_paths :=
  unfold try_update_sw, detect_sw_update, provisioning_checks,
         provision_partition;
  mstep;
  repeat (first [fork | through_countdown]; cbn [Z.eqb]; mstep).

(** X21: in every run of the update check, for every fuel and delay, the
    events that change the internal disk (platform hook, filesystem
    check, format, update) occur only while [action_mutex] is held; the
    mutex is never taken twice nor released while free, and it is free
    when the run ends. *)
Theorem try_update_sw_touches_disk_under_lock (w : env) (fuel : nat)
  (vol : Volume) (use_countdown : Z) (g : globals) :
  lock_scan false (trace_of (try_update_sw w fuel vol use_countdown g))
  = Some false.
Proof.
  name_run. update_paths.
  all: intros [= <- <- <-].
  all: repeat rewrite <- app_assoc; cbn [app].
  all: repeat (cbn [lock_scan needs_lock andb negb];
               rewrite ?lock_scan_countdown, ?lock_scan_countdown_only
                 by assumption).
  all: reflexivity.
Qed.

(** Membership in a trace with the events of a countdown in the middle. *)
Ltac in_cases H :=
  repeat (cbn [In] in H; rewrite ?in_app_iff in H;
          match type of H with _ \/ _ => destruct H as [H | H] end);
  try discriminate H; try contradiction;
  try match goal with
      | Hq : forallb is_countdown_event ?tc = true |- _ =>
          apply (countdown_event_in tc _ Hq) in H; discriminate H
      end.

(** X22: starting with no update stashed, a run of the update check
    stashes a path only when the update-pause option is set, and the path
    is then the detected package and the result 0, nothing having been
    applied; it applies an update only when the option is clear, the
    update is then the detected package, the result is -1 even though the
    applier returned, and nothing is stashed. *)
Theorem try_update_sw_applies_or_stashes (w : env) (fuel : nat)
  (vol : Volume) (use_countdown : Z) (g : globals) :
  g_update_location g = None ->
  let run := try_update_sw w fuel vol use_countdown g in
  (forall path,
     g_update_location (globals_of run) = Some path ->
     path = update_package w vol
     /\ g_update_pause w <> 0
     /\ result_of run = Val 0
     /\ forall p, ~ In (ApplySwUpdate p) (trace_of run))
  /\ (forall p,
        In (ApplySwUpdate p) (trace_of run) ->
        p = update_package w vol
        /\ g_update_pause w = 0
        /\ result_of run = Val (-1)
        /\ g_update_location (globals_of run) = None).
Proof.
  intros Hnone. cbn zeta. name_run. unfold update_package.
  unfold try_update_sw. mstep. rewrite Hnone. mstep.
  unfold detect_sw_update, provisioning_checks, provision_partition. mstep.
  repeat (first [fork | through_countdown]; cbn [Z.eqb]; mstep).
  all: intros [= <- <- <-]; cbn [g_update_location]; props.
  all: split; [intros path' Hp | intros q Hin].
  all: try congruence.
  all: try (in_cases Hin; fail).
  all: try (injection Hp as <-;
            split; [exact (advance_mnt _) |];
            split; [assumption |]; split; [reflexivity |];
            intros p1 Hin1; in_cases Hin1; fail).
  all: in_cases Hin.
  all: apply (f_equal (fun e => match e with ApplySwUpdate c => c | _ => q end))
         in Hin; cbv beta iota in Hin; subst q.
  all: split; [exact (advance_mnt _) |].
  all: repeat split; (assumption || congruence).
Qed.

Lemma try_update_sw_applies_or_stashes_witness :
  g_update_location g0 = None
  /\ g_update_location
       (globals_of (try_update_sw (bench board_full 0x83 0xEF53 0 0) 8 sdcard 1 g0))
     = Some "/sdcard/mfld.auto-ota.zip"
  /\ "/sdcard/mfld.auto-ota.zip"
     = update_package (bench board_full 0x83 0xEF53 0 0) sdcard
  /\ g_update_pause (bench board_full 0x83 0xEF53 0 0) <> 0
  /\ result_of (try_update_sw (bench board_full 0x83 0xEF53 0 0) 8 sdcard 1 g0)
     = Val 0.
Proof.
  split; [reflexivity |]. split; [reflexivity |].
  destruct (try_update_sw_applies_or_stashes
              (bench board_full 0x83 0xEF53 0 0) 8 sdcard 1 g0 eq_refl)
    as [Hstash _].
  destruct (Hstash "/sdcard/mfld.auto-ota.zip" eq_refl) as (Hp & Hpause & Hr & _).
  split; [exact Hp |]. split; [exact Hpause | exact Hr].
Defined.

Ltac in_mid :=
  repeat (cbn [In]; first [left; reflexivity | right | apply in_or_app; right]).




(* ------------------------------------------------------------------ *)
(** ** The autoboot thread and the input callback *)

(** X24: the autoboot thread (with a non-negative delay and fuel for it)
    goes on to mount the second-stage partition exactly when no key event
    arrives in any window of its countdown; when one does, the thread ends
    having done nothing but count down. *)
Theorem autoboot_thread_boots_iff_no_key (w : env) (fuel : nat) (g : globals) :
  0 <= g_autoboot_delay_secs w ->
  (Z.to_nat (g_autoboot_delay_secs w) <= fuel)%nat ->
  let run := autoboot_thread w fuel g in
  let undisturbed :=
    quiet w (clock g) (Z.to_nat (g_autoboot_delay_secs w) + 2) in
  ((exists ptn, In (MountPartition ptn) (trace_of run)) <-> undisturbed = true)
  /\ (undisturbed = false ->
      result_of run = Val tt
      /\ forall e, In e (trace_of run) -> is_countdown_event e = true).
Proof.
  intros HD Hfuel. cbn zeta.
  destruct (countdown_returns w fuel "boot" (g_autoboot_delay_secs w) g
              HD Hfuel) as (tc & gc & Hrun & Hev & Hloc & Hflag).
  name_run. unfold autoboot_thread. mstep. rewrite Hrun. mstep.
  destruct (quiet w (clock g) (Z.to_nat (g_autoboot_delay_secs w) + 2));
    cbn [Z.eqb]; mstep.
  - unfold start_default_kernel. mstep. forks.
    all: intros [= <- <- <-].
    all: split; [split; [reflexivity | intros _; eexists; in_mid] | discriminate].
  - intros [= <- <- <-]. rewrite app_nil_r.
    split; [split; [intros [ptn Hin] | discriminate] |].
    + apply (countdown_event_in _ _ Hev) in Hin. discriminate Hin.
    + intros _. split; [reflexivity |].
      intros e Hin. apply (countdown_event_in _ _ Hev Hin).
Qed.

Lemma autoboot_thread_boots_iff_no_key_witness :
  0 <= g_autoboot_delay_secs (bench board 0x83 0xEF53 0 0)
  /\ (Z.to_nat (g_autoboot_delay_secs (bench board 0x83 0xEF53 0 0)) <= 8)%nat
  /\ exists ptn,
       In (MountPartition ptn)
          (trace_of (autoboot_thread (bench board 0x83 0xEF53 0 0) 8 g0)).
Proof.
  assert (H2 : 0 <= g_autoboot_delay_secs (bench board 0x83 0xEF53 0 0))
    by (cbn; lia).
  assert (H3 : (Z.to_nat (g_autoboot_delay_secs (bench board 0x83 0xEF53 0 0))
                <= 8)%nat) by (cbn; lia).
  split; [exact H2 |]. split; [exact H3 |].
  apply (proj1 (autoboot_thread_boots_iff_no_key
                  (bench board 0x83 0xEF53 0 0) 8 g0 H2 H3)).
  reflexivity.
Defined.

(** X25: the input callback emits nothing and returns -1 when no event
    could be read, 0 otherwise; an event of type EV_KEY, whatever its code
    and value (press or release), clears the armed flag; any other event
    leaves it as it is; the flag is never set by the callback, and the
    stashed update path is never touched. *)
Theorem input_callback_only_disarms (got : option input_event) (g : globals) :
  let run := input_callback got g in
  trace_of run = []
  /\ g_update_location (globals_of run) = g_update_location g
  /\ clock (globals_of run) = clock g
  /\ result_of run = Val (match got with None => -1 | Some _ => 0 end)
  /\ autoboot_enabled (globals_of run)
     = match got with
       | Some ev => if ev_type ev =? EV_KEY then 0 else autoboot_enabled g
       | None => autoboot_enabled g
       end.
Proof.
  cbn zeta. unfold input_callback, disable_autoboot.
  destruct got as [ev |]; mstep; [| repeat split].
  destruct (ev_type ev =? EV_KEY); mstep; [| repeat split].
  destruct (Z.eqb_spec (autoboot_enabled g) 0) as [H0 | H0]; mstep;
    repeat split; exact H0.
Qed.

(* ------------------------------------------------------------------ *)
(** ** The boot parameters *)

(** X26: the parser splits a token at its first '=': the name is what
    stands before it and holds no '=', the value is all that follows,
    further '=' included; a token without '=' is not split. *)
Theorem split_eq_iff (token name value : string) :
  Cmdline.split_eq token = Some (name, value)
  <-> token = name ++ "=" ++ value /\ Cmdline.no_equals name = true.
Proof.
  revert name. induction token as [| c token IH]; intros name;
    cbn [Cmdline.split_eq].
  - split; [discriminate |]. intros [H _]. destruct name; discriminate H.
  - destruct (Ascii.eqb_spec c "=") as [-> | Hc].
    + split.
      * intros [= <- <-]. split; reflexivity.
      * intros [H Hn]. destruct name as [| d name].
        -- cbn in H. now injection H as <-.
        -- cbn in H. injection H as <- _. cbn in Hn. discriminate Hn.
    + destruct (Cmdline.split_eq token) as [[n v] |] eqn:Hs.
      * split.
        -- intros [= <- <-]. destruct (proj1 (IH n) eq_refl) as [-> Hn].
           split; [reflexivity |]. cbn [Cmdline.no_equals].
           rewrite (proj2 (Ascii.eqb_neq c "=") Hc). exact Hn.
        -- intros [H Hn]. destruct name as [| d name].
           ++ cbn in H. injection H as -> _. contradiction.
           ++ cbn in H. injection H as <- ->. cbn [Cmdline.no_equals] in Hn.
              apply andb_true_iff in Hn. destruct Hn as [_ Hn].
              pose proof (proj2 (IH name) (conj eq_refl Hn)) as Hs'.
              now injection Hs' as -> ->.
      * split; [discriminate |]. intros [H Hn]. destruct name as [| d name].
        -- cbn in H. injection H as -> _. contradiction.
        -- cbn in H. injection H as <- ->. cbn [Cmdline.no_equals] in Hn.
           apply andb_true_iff in Hn. destruct Hn as [_ Hn].
           pose proof (proj2 (IH name) (conj eq_refl Hn)) as Hs'.
           discriminate Hs'.
Qed.

Ltac key_chain :=
  repeat match goal with
  | |- context [if (?n =? ?k)%string then _ else _] =>
      destruct (String.eqb_spec n k)
  | |- context [if negb ?c then _ else _] => destruct c eqn:?; cbn [negb]
  end.

(** X27: no boot parameter changes the second-stage directory: the
    "droidboot.bootdir" option, like "droidboot.bootpart", stores its
    value in the second-stage partition name. *)
Theorem bootdir_option_never_sets_directory (w : env) (token : string)
  (o : Cmdline.options) :
  (forall o', Cmdline.parse_cmdline_option w token o = Val o' ->
              Cmdline.g_2ndstageboot_dir o' = Cmdline.g_2ndstageboot_dir o)
  /\ (forall value,
        token = "droidboot.bootdir=" ++ value ->
        strdup_ok w value = true ->
        exists o', Cmdline.parse_cmdline_option w token o = Val o'
                   /\ Cmdline.g_2ndstageboot_part o' = value).
Proof.
  split.
  - intros o'. unfold Cmdline.parse_cmdline_option.
    destruct (Cmdline.split_eq token) as [[name value] |];
      [| now intros [= <-]].
    key_chain; intros [= <-]; reflexivity.
  - intros value -> Hdup. unfold Cmdline.parse_cmdline_option.
    cbn. rewrite Hdup. cbn.
    eexists. split; reflexivity.
Qed.

Lemma bootdir_option_never_sets_directory_witness :
  strdup_ok (bench board 0x83 0xEF53 0 0) "images" = true
  /\ exists o',
       Cmdline.parse_cmdline_option (bench board 0x83 0xEF53 0 0)
         "droidboot.bootdir=images"
         (Cmdline.initial (bench board 0x83 0xEF53 0 0)) = Val o'
       /\ Cmdline.g_2ndstageboot_part o' = "images"
       /\ Cmdline.g_2ndstageboot_dir o' = "2ndstageboot".
Proof.
  destruct (bootdir_option_never_sets_directory
              (bench board 0x83 0xEF53 0 0) "droidboot.bootdir=images"
              (Cmdline.initial (bench board 0x83 0xEF53 0 0)))
    as [Hdir Hpart].
  split; [reflexivity |].
  destruct (Hpart "images" eq_refl eq_refl) as (o' & Hparse & Hp).
  exists o'. split; [exact Hparse |]. split; [exact Hp |].
  exact (Hdir o' Hparse).
Defined.

(** X28: parsing a boot parameter ends the process exactly when the token
    is a "droidboot.bootpart" or "droidboot.bootdir" option whose value
    cannot be duplicated; every other token, well formed or not, is
    survived. *)
Theorem parse_cmdline_option_dies_iff (w : env) (token : string)
  (o : Cmdline.options) :
  Cmdline.parse_cmdline_option w token o = Halt Died
  <-> exists value,
        (token = "droidboot.bootpart=" ++ value
         \/ token = "droidboot.bootdir=" ++ value)
        /\ strdup_ok w value = false.
Proof.
  split.
  - unfold Cmdline.parse_cmdline_option.
    destruct (Cmdline.split_eq token) as [[name value] |] eqn:Hs;
      [| discriminate].
    apply split_eq_iff in Hs. destruct Hs as [-> _].
    key_chain; try discriminate; intros _; subst name; exists value;
      (split; [| assumption]); [left | right]; reflexivity.
  - intros (value & [-> | ->] & Hdup); unfold Cmdline.parse_cmdline_option;
      cbn; rewrite Hdup; reflexivity.
Qed.

(** X29: a token changes the options only when it is name=value with one
    of the seven known names; tokens without '=', with an empty name, with
    a name that does not begin with "droidboot", or with an unknown
    "droidboot" name leave every option as it was. *)
Theorem parse_cmdline_option_changes_known_keys_only (w : env)
  (token : string) (o o' : Cmdline.options) :
  Cmdline.parse_cmdline_option w token o = Val o' ->
  o' <> o ->
  exists name value,
    token = name ++ "=" ++ value /\ In name Cmdline.known_keys.
Proof.
  unfold Cmdline.parse_cmdline_option.
  destruct (Cmdline.split_eq token) as [[name value] |] eqn:Hs;
    [| intros [= <-] H; contradiction].
  apply split_eq_iff in Hs. destruct Hs as [-> _].
  key_chain; intros [= <-] Hne; try contradiction;
    exists name, value; (split; [reflexivity |]); subst name;
    unfold Cmdline.known_keys; cbn [In]; tauto.
Qed.

Lemma parse_cmdline_option_changes_known_keys_only_witness :
  Cmdline.parse_cmdline_option (bench board 0x83 0xEF53 0 0)
    "droidboot.delay=3" (Cmdline.initial (bench board 0x83 0xEF53 0 0))
  = Val {| Cmdline.g_use_autoboot := 0;
           Cmdline.g_2ndstageboot_part := "data";
           Cmdline.g_2ndstageboot_dir := "2ndstageboot";
           Cmdline.g_autoboot_delay_secs := 3;
           Cmdline.g_scratch_size := 400;
           Cmdline.g_min_battery := 10;
           Cmdline.g_update_pause := 0 |}
  /\ exists name value,
       "droidboot.delay=3" = name ++ "=" ++ value
       /\ In name Cmdline.known_keys.
Proof.
  split; [reflexivity |].
  apply (parse_cmdline_option_changes_known_keys_only
           (bench board 0x83 0xEF53 0 0) "droidboot.delay=3"
           (Cmdline.initial (bench board 0x83 0xEF53 0 0))
           {| Cmdline.g_use_autoboot := 0;
              Cmdline.g_2ndstageboot_part := "data";
              Cmdline.g_2ndstageboot_dir := "2ndstageboot";
              Cmdline.g_autoboot_delay_secs := 3;
              Cmdline.g_scratch_size := 400;
              Cmdline.g_min_battery := 10;
              Cmdline.g_update_pause := 0 |}).
  - reflexivity.
  - intros H. discriminate H.
Defined.
